(** * gpam_training: the multi-label trainer

    A shallow embedding of [gpam_training/multilabel_training.py], the
    class [MultilabelTraining], and the properties of its training,
    prediction and serialisation entry points.

    The trainer is an orchestration layer: it reshapes frames and calls
    pandas, scikit-learn, fastparquet, pickle and two helper modules of the
    package ([dataframe_preprocessing], [metrics]).  Frames and the calls
    made on them are modelled concretely; the learning primitives are the
    fields of the class [Collaborators], and every method is a computation
    in a state-and-exception monad over the trainer object and its
    environment (files, the global random generator, the log of calls). *)

From Stdlib Require Import List String Ascii ZArith QArith Bool Arith Lia.
From Stdlib Require Import DecimalString.
Import ListNotations.
Local Open Scope string_scope.
Local Open Scope nat_scope.

Set Implicit Arguments.

(** ** Frames *)

(** A column label: the themes are integers, the text column a string. *)
Inductive label : Type :=
| LInt (z : Z)
| LStr (s : string).

Definition label_eq_dec (a b : label) : {a = b} + {a <> b}.
Proof. decide equality; [apply Z.eq_dec | apply string_dec]. Defined.

Definition label_eqb (a b : label) : bool :=
  if label_eq_dec a b then true else false.

Inductive cell : Type :=
| CInt (z : Z)
| CStr (s : string)
| NaN.

Definition cell_eq_dec (a b : cell) : {a = b} + {a <> b}.
Proof. decide equality; [apply Z.eq_dec | apply string_dec]. Defined.

Definition row_eq_dec : forall a b : list cell, {a = b} + {a <> b} :=
  list_eq_dec cell_eq_dec.

(** A [pandas.DataFrame], row-major.  A [Series] is kept as the frame of
    its single column. *)
Record DataFrame : Type := mkFrame {
  columns : list label;
  rows : list (list cell)
}.

(** [pd.DataFrame()] *)
Definition pd_DataFrame : DataFrame := mkFrame [] [].

(** [df.empty]: some axis has length zero. *)
Definition empty (d : DataFrame) : bool :=
  (List.length (columns d) =? 0) || (List.length (rows d) =? 0).

(** [len(df)] *)
Definition len (d : DataFrame) : nat := List.length (rows d).

(** Python exceptions, by class. *)
Inductive exn : Type :=
| AttributeError (name : string)
| KeyError (key : label)
| ValueError (msg : string)
| IndexError
| FileNotFoundError (path : string)
| EmptyDataError
| ParserError
| OtherError (msg : string).

(** What a library call does: it returns or it raises. *)
Inductive result (A : Type) : Type :=
| Returns (a : A)
| Raises (e : exn).

Arguments Returns {A} a.
Arguments Raises {A} e.

(** What a method of the trainer does: the third case is a loop that has
    not finished within the iterations it was given. *)
Inductive outcome (A : Type) : Type :=
| Ok (a : A)
| Raise (e : exn)
| OutOfFuel.

Arguments Ok {A} a.
Arguments Raise {A} e.
Arguments OutOfFuel {A}.

(** Positions of the columns of [cols] that carry the label [c]. *)
Fixpoint positions_from (i : nat) (c : label) (cols : list label) : list nat :=
  match cols with
  | [] => []
  | c' :: rest =>
      if label_eqb c c' then i :: positions_from (S i) c rest
      else positions_from (S i) c rest
  end.

Definition positions (c : label) (cols : list label) : list nat :=
  positions_from 0 c cols.

Definition take_positions (ps : list nat) (r : list cell) : list cell :=
  map (fun i => nth i r NaN) ps.

Definition missing (d : DataFrame) (c : label) : bool :=
  match positions c (columns d) with
  | [] => true
  | _ :: _ => false
  end.

(** [df[[c1, ..., cn]]]: the columns in the order asked; every column that
    carries an asked label is returned; a label that no column carries is a
    [KeyError]. *)
Definition getitem_list (d : DataFrame) (cols : list label) : result DataFrame :=
  match find (missing d) cols with
  | Some c => Raises (KeyError c)
  | None =>
      let ps := flat_map (fun c => positions c (columns d)) cols in
      Returns (mkFrame (map (fun i => nth i (columns d) (LStr "")) ps)
                  (map (take_positions ps) (rows d)))
  end.

(** [df[c]] *)
Definition getitem (d : DataFrame) (c : label) : result DataFrame :=
  getitem_list d [c].

(** [df.reset_index()] on a default index: the old index becomes the first
    column, named "index", or "level_0" when "index" is taken; inserting a
    name that exists is a [ValueError]. *)
Definition reset_index (d : DataFrame) : result DataFrame :=
  let name :=
    if missing d (LStr "index") then LStr "index" else LStr "level_0" in
  if missing d name then
    Returns (mkFrame (name :: columns d)
                (map (fun ir => CInt (Z.of_nat (fst ir)) :: snd ir)
                     (combine (seq 0 (List.length (rows d))) (rows d))))
  else Raises (ValueError "cannot insert level_0, already exists").

(** [_safe_indexing(a, indices)] on the rows of a frame. *)
Fixpoint safe_rows (rs : list (list cell)) (idx : list nat)
  : option (list (list cell)) :=
  match idx with
  | [] => Some []
  | i :: idx' =>
      match nth_error rs i, safe_rows rs idx' with
      | Some r, Some out => Some (r :: out)
      | _, _ => None
      end
  end.

Definition safe_indexing (d : DataFrame) (idx : list nat) : result DataFrame :=
  match safe_rows (rows d) idx with
  | Some rs => Returns (mkFrame (columns d) rs)
  | None => Raises IndexError
  end.

(** ** Files *)

(** A CSV file is the list of its lines and a line the list of its fields;
    the blank line has none.  pandas leaves the blank lines out of the
    records it reads ([skip_blank_lines=True]) and counts them among the
    lines it skips ([skiprows]). *)
Definition blank (line : list string) : bool :=
  match line with
  | [] => true
  | _ :: _ => false
  end.

Definition records (lines : list (list string)) : list (list string) :=
  filter (fun line => negb (blank line)) lines.

Inductive File : Type :=
| CsvFile (lines : list (list string))
| ParquetData (row_groups : list DataFrame).

Definition FileSystem : Type := string -> option File.

(** ** The collaborators

    scikit-learn's estimators and vectorizer, numpy's random generators,
    pickle, the typing of the cells that pandas reads, and the two helper
    modules of the package whose sources the trainer only imports. *)

(** The keyword arguments of [DataframePreprocessing(...)]; [None] is an
    argument left to its default. *)
Record PreprocessingArgs (LabelsFreq : Type) : Type := mkArgs {
  arg_x_column_name : option label;
  arg_group_processes : bool;
  arg_target_themes : list label;
  arg_other_themes_value : label;
  arg_is_incremental_training : bool;
  arg_is_parquet : option bool;
  arg_labels_freq : option LabelsFreq
}.

(** The two attributes the trainer reads from a preprocessor. *)
Record Preprocessing : Type := mkPreprocessing {
  processed_df : DataFrame;
  distinct_themes : list label
}.

(** What scikit-learn takes as [X]: a feature matrix, or a frame that it
    converts to an array itself. *)
Inductive ArrayLike (Matrix : Type) : Type :=
| OfMatrix (m : Matrix)
| OfFrame (d : DataFrame).

Arguments OfMatrix {Matrix} m.
Arguments OfFrame {Matrix} d.

Class Collaborators : Type := {
  Matrix : Type;
  Estimator : Type;
  MultiOutput : Type;
  Vectorizer : Type;
  Prediction : Type;
  Metrics : Type;
  Classes : Type;
  LabelsFreq : Type;
  Rng : Type;

  (** [sklearn]: the default estimator and vectorizer, the one-estimator-
      per-label wrapper, and what they compute.  A fit is a function of
      the ensemble and the data, as for an estimator that carries its own
      seed (the default has [random_state=42]); an estimator that draws
      from the global generator is outside this model. *)
  PassiveAggressiveClassifier : Z -> Estimator;
  HashingVectorizer : N -> Vectorizer;
  MultiOutputClassifier : Estimator -> MultiOutput;
  fit_transform : Vectorizer -> DataFrame -> result (Vectorizer * Matrix);
  toarray : Matrix -> Matrix;
  mo_fit :
    MultiOutput -> ArrayLike Matrix -> DataFrame -> result MultiOutput;
  mo_partial_fit :
    MultiOutput -> ArrayLike Matrix -> DataFrame -> Classes ->
    result MultiOutput;
  mo_predict : MultiOutput -> ArrayLike Matrix -> result Prediction;

  (** [numpy.random.RandomState(seed)], and the two steps of
      [train_test_split] that round a float or draw from the generator. *)
  RandomState : Z -> Rng;
  validate_shuffle_split : nat -> Q -> string + (nat * nat);
  shuffle_indices :
    Rng -> option (list (list cell)) -> nat -> nat -> nat ->
    Rng * (string + (list nat * list nat));

  (** [pandas]: the cells of a record of a CSV file, typed with the chunk
      it is read in (one dtype per column of the chunk, the NA strings as
      [NaN]). *)
  typed_record : list (list string) -> list string -> list cell;

  (** The empty dict [{}] as a table of label frequencies. *)
  no_labels_freq : LabelsFreq;

  (** [pickle.dumps]: the bytes of the ensemble, or the error of one that
      cannot be pickled. *)
  pickle_dumps : MultiOutput -> result (list Byte.byte);

  (** [gpam_training.dataframe_preprocessing] and [gpam_training.metrics] *)
  DataframePreprocessing :
    PreprocessingArgs LabelsFreq -> DataFrame -> result Preprocessing;
  get_unique_binarized_labels :
    FileSystem -> string -> string -> option bool ->
    result (Classes * LabelsFreq);
  get_multilabel_metrics : DataFrame -> Prediction -> result Metrics
}.

Section Trainer.

Context {C : Collaborators}.

(** ** The trainer object and its environment *)

(** The attributes of a [MultilabelTraining] instance.  Those that
    [__init__] always sets are plain fields; an attribute that only some
    path sets is [None] until then, and reading it then is an
    [AttributeError]. *)
Record Trainer : Type := mkTrainer {
  is_incremental_training : bool;
  mo_classifier : MultiOutput;
  classifier : Estimator;
  vectorizer : Vectorizer;
  target_themes : list label;
  other_themes_value : label;
  group_processes : bool;
  x_column_name : label;
  df : DataFrame;
  dp : option Preprocessing;
  y_columns_names : option (list label);
  X_train : option DataFrame;
  X_test : option DataFrame;
  y_train : option DataFrame;
  y_test : option DataFrame;
  y_pred : option Prediction
}.

(** The calls the trainer makes on its collaborators and on the console,
    in the order made. *)
Inductive Event : Type :=
| EvPrint (s : string)
| EvClearOutput
| EvReadCsv (path : string) (nrows skiprows : nat)
| EvParquetFile (path : string)
| EvUniqueLabels (path column : string) (is_parquet : option bool)
| EvPreprocessing (args : PreprocessingArgs LabelsFreq) (raw : DataFrame)
| EvSplit (X y : DataFrame)
| EvFitTransform (X : DataFrame)
| EvFit (X : ArrayLike Matrix) (y : DataFrame)
| EvPartialFit (X : ArrayLike Matrix) (y : DataFrame) (classes : Classes)
| EvPredict (X : ArrayLike Matrix)
| EvMetrics (y_true : DataFrame) (y_hat : Prediction)
| EvPickle.

Record State : Type := mkState {
  fs : FileSystem;
  np_random : Rng;
  calls : list Event;
  self : Trainer
}.

(** ** The monad: state, exceptions, fuel *)

Definition M (A : Type) : Type := State -> outcome A * State.

Definition ret {A} (a : A) : M A := fun s => (Ok a, s).

Definition bind {A B} (m : M A) (k : A -> M B) : M B :=
  fun s =>
    match m s with
    | (Ok a, s') => k a s'
    | (Raise e, s') => (Raise e, s')
    | (OutOfFuel, s') => (OutOfFuel, s')
    end.

Notation "x <- m ;; k" := (bind m (fun x => k))
  (at level 61, m at next level, right associativity).
Notation "m ;;; k" := (bind m (fun _ => k))
  (at level 61, right associativity).

Definition raise {A} (e : exn) : M A := fun s => (Raise e, s).

Definition out_of_fuel {A} : M A := fun s => (OutOfFuel, s).

Definition outcome_of {A} (r : result A) : outcome A :=
  match r with
  | Returns a => Ok a
  | Raises e => Raise e
  end.

(** A library call that leaves the trainer and its environment alone. *)
Definition lift {A} (r : result A) : M A := fun s => (outcome_of r, s).

Definition gets {A} (f : Trainer -> A) : M A := fun s => (Ok (f (self s)), s).

(** [self.name], for an attribute that may not be set yet. *)
Definition attr {A} (name : string) (f : Trainer -> option A) : M A :=
  fun s =>
    match f (self s) with
    | Some a => (Ok a, s)
    | None => (Raise (AttributeError name), s)
    end.

Definition setattr (f : Trainer -> Trainer) : M unit :=
  fun s => (Ok tt, mkState (fs s) (np_random s) (calls s) (f (self s))).

Definition emit (e : Event) : M unit :=
  fun s => (Ok tt, mkState (fs s) (np_random s) (calls s ++ [e]) (self s)).

Definition print (msg : string) : M unit := emit (EvPrint msg).

Definition filesystem : M FileSystem := fun s => (Ok (fs s), s).

(** Attribute assignments. *)
Definition set_df (d : DataFrame) (t : Trainer) : Trainer :=
  mkTrainer (is_incremental_training t) (mo_classifier t) (classifier t)
    (vectorizer t) (target_themes t) (other_themes_value t)
    (group_processes t) (x_column_name t) d (dp t) (y_columns_names t)
    (X_train t) (X_test t) (y_train t) (y_test t) (y_pred t).

Definition set_dp (p : Preprocessing) (t : Trainer) : Trainer :=
  mkTrainer (is_incremental_training t) (mo_classifier t) (classifier t)
    (vectorizer t) (target_themes t) (other_themes_value t)
    (group_processes t) (x_column_name t) (df t) (Some p) (y_columns_names t)
    (X_train t) (X_test t) (y_train t) (y_test t) (y_pred t).

Definition set_y_columns_names (l : list label) (t : Trainer) : Trainer :=
  mkTrainer (is_incremental_training t) (mo_classifier t) (classifier t)
    (vectorizer t) (target_themes t) (other_themes_value t)
    (group_processes t) (x_column_name t) (df t) (dp t) (Some l)
    (X_train t) (X_test t) (y_train t) (y_test t) (y_pred t).

Definition set_mo_classifier (m : MultiOutput) (t : Trainer) : Trainer :=
  mkTrainer (is_incremental_training t) m (classifier t)
    (vectorizer t) (target_themes t) (other_themes_value t)
    (group_processes t) (x_column_name t) (df t) (dp t) (y_columns_names t)
    (X_train t) (X_test t) (y_train t) (y_test t) (y_pred t).

Definition set_vectorizer (v : Vectorizer) (t : Trainer) : Trainer :=
  mkTrainer (is_incremental_training t) (mo_classifier t) (classifier t)
    v (target_themes t) (other_themes_value t)
    (group_processes t) (x_column_name t) (df t) (dp t) (y_columns_names t)
    (X_train t) (X_test t) (y_train t) (y_test t) (y_pred t).

Definition set_X_train (x : DataFrame) (t : Trainer) : Trainer :=
  mkTrainer (is_incremental_training t) (mo_classifier t) (classifier t)
    (vectorizer t) (target_themes t) (other_themes_value t)
    (group_processes t) (x_column_name t) (df t) (dp t) (y_columns_names t)
    (Some x) (X_test t) (y_train t) (y_test t) (y_pred t).

Definition assign_X_test (x : DataFrame) (t : Trainer) : Trainer :=
  mkTrainer (is_incremental_training t) (mo_classifier t) (classifier t)
    (vectorizer t) (target_themes t) (other_themes_value t)
    (group_processes t) (x_column_name t) (df t) (dp t) (y_columns_names t)
    (X_train t) (Some x) (y_train t) (y_test t) (y_pred t).

Definition set_y_train (y : DataFrame) (t : Trainer) : Trainer :=
  mkTrainer (is_incremental_training t) (mo_classifier t) (classifier t)
    (vectorizer t) (target_themes t) (other_themes_value t)
    (group_processes t) (x_column_name t) (df t) (dp t) (y_columns_names t)
    (X_train t) (X_test t) (Some y) (y_test t) (y_pred t).

Definition assign_y_test (y : DataFrame) (t : Trainer) : Trainer :=
  mkTrainer (is_incremental_training t) (mo_classifier t) (classifier t)
    (vectorizer t) (target_themes t) (other_themes_value t)
    (group_processes t) (x_column_name t) (df t) (dp t) (y_columns_names t)
    (X_train t) (X_test t) (y_train t) (Some y) (y_pred t).

Definition set_y_pred (p : Prediction) (t : Trainer) : Trainer :=
  mkTrainer (is_incremental_training t) (mo_classifier t) (classifier t)
    (vectorizer t) (target_themes t) (other_themes_value t)
    (group_processes t) (x_column_name t) (df t) (dp t) (y_columns_names t)
    (X_train t) (X_test t) (y_train t) (y_test t) (Some p).

(** ** Library calls *)

Definition open_file (path : string) : M File :=
  fun s =>
    match fs s path with
    | Some f => (Ok f, s)
    | None => (Raise (FileNotFoundError path), s)
    end.

(** The frame of a chunk of records under the names [names]. *)
Definition frame_of_records (names : list label)
    (chunk : list (list string)) : DataFrame :=
  mkFrame names (map (typed_record chunk) chunk).

(** [pd.read_csv(path, nrows=nrows, skiprows=skiprows, ...)]: the first
    [skiprows] lines of the file are skipped, blank ones counted; of the
    lines left the blank ones are dropped and the others are the records.
    With [names=None] the first record is the header; with [header=None,
    names=names] every record is data.  At most [nrows] records are read,
    and a file with no record left gives a frame of zero rows. *)
Definition read_csv (path : string) (nrows skiprows : nat)
    (names : option (list label)) : M DataFrame :=
  emit (EvReadCsv path nrows skiprows) ;;;
  f <- open_file path ;;
  match f with
  | CsvFile lines =>
      let rest := records (skipn skiprows lines) in
      match names with
      | None =>
          match rest with
          | [] => raise EmptyDataError
          | header :: body =>
              ret (frame_of_records (map LStr header) (firstn nrows body))
          end
      | Some ns => ret (frame_of_records ns (firstn nrows rest))
      end
  | ParquetData _ => raise ParserError
  end.

(** [ParquetFile(path)] with its [iter_row_groups()]. *)
Definition ParquetFile (path : string) : M (list DataFrame) :=
  emit (EvParquetFile path) ;;;
  f <- open_file path ;;
  match f with
  | ParquetData groups => ret groups
  | CsvFile _ => raise ParserError
  end.

(** [check_random_state(seed)]: a fresh generator for an integer seed, the
    global one of [numpy.random] for [None]. *)
Definition check_random_state (random_state : option Z) : M Rng :=
  fun s =>
    match random_state with
    | Some seed => (Ok (RandomState seed), s)
    | None => (Ok (np_random s), s)
    end.

Definition advance (random_state : option Z) (rng : Rng) : M unit :=
  fun s =>
    match random_state with
    | Some _ => (Ok tt, s)
    | None => (Ok tt, mkState (fs s) rng (calls s) (self s))
    end.

(** Some class of [keys] has fewer than two members. *)
Definition least_populated_below_2 (keys : list (list cell)) : bool :=
  existsb (fun k => count_occ row_eq_dec keys k <? 2) keys.

(** [train_test_split(X, y, stratify=stratify, test_size=test_size,
    random_state=random_state)]: the sizes are validated, then, when
    stratifying, each distinct row of [stratify] is a class and a class
    with a single member is a [ValueError]; the indices are drawn and both
    arrays are indexed by them. *)
Definition train_test_split (X y : DataFrame) (stratify : option DataFrame)
    (test_size : Q) (random_state : option Z)
  : M (DataFrame * DataFrame * DataFrame * DataFrame) :=
  emit (EvSplit X y) ;;;
  if negb (len X =? len y) then
    raise (ValueError "Found input variables with inconsistent numbers of samples")
  else
    match validate_shuffle_split (len X) test_size with
    | inl msg => raise (ValueError msg)
    | inr (n_train, n_test) =>
        if match stratify with
           | Some ys => least_populated_below_2 (rows ys)
           | None => false
           end
        then raise (ValueError "The least populated class in y has only 1 member, which is too few.")
        else
          rng <- check_random_state random_state ;;
          let '(rng', drawn) :=
            shuffle_indices rng (option_map rows stratify) (len X)
                            n_train n_test in
          advance random_state rng' ;;;
          match drawn with
          | inl msg => raise (ValueError msg)
          | inr (train, test) =>
              X_tr <- lift (safe_indexing X train) ;;
              X_te <- lift (safe_indexing X test) ;;
              y_tr <- lift (safe_indexing y train) ;;
              y_te <- lift (safe_indexing y test) ;;
              ret (X_tr, X_te, y_tr, y_te)
          end
    end.

(** ** The class [MultilabelTraining] *)

Definition X_COLUMN_NAME : label := LStr "page_text_extract".

Definition DEFAULT_TARGET_THEMES : list label :=
  map LInt
    [0; 5; 6; 26; 33; 139; 163; 232; 313; 339; 350; 406; 409; 555; 589;
     597; 634; 660; 695; 729; 766; 773; 793; 800; 810; 852; 895; 951;
     975]%Z.

Definition OTHER_THEMES_VALUE : label := LInt 4242.

Definition _initialize_dataframe (d : DataFrame) : M unit :=
  if negb (empty d) then
    group <- gets group_processes ;;
    themes <- gets target_themes ;;
    other <- gets other_themes_value ;;
    incremental <- gets is_incremental_training ;;
    let args := mkArgs None group themes other incremental None None in
    emit (EvPreprocessing args d) ;;;
    p <- lift (DataframePreprocessing args d) ;;
    setattr (set_dp p) ;;;
    p1 <- attr "dp" dp ;;
    setattr (set_y_columns_names (distinct_themes p1)) ;;;
    p2 <- attr "dp" dp ;;
    setattr (set_df (processed_df p2))
  else
    setattr (set_df d).

(** [MultilabelTraining(df, x_column_name, group_processes, classifier,
    vectorizer, target_themes, other_themes_value,
    is_incremental_training)]: the object under construction is [self]. *)
Definition __init__ (d : DataFrame) (x_column_name : label)
    (group_processes : bool) (classifier : Estimator)
    (vectorizer : Vectorizer) (target_themes : list label)
    (other_themes_value : label) (is_incremental_training : bool) : M unit :=
  setattr (fun _ =>
    mkTrainer is_incremental_training (MultiOutputClassifier classifier)
      classifier vectorizer target_themes other_themes_value
      group_processes x_column_name d None None None None None None None) ;;;
  _initialize_dataframe d.

(** The constructor with every argument at its default. *)
Definition default_init : M unit :=
  __init__ pd_DataFrame X_COLUMN_NAME true (PassiveAggressiveClassifier 42)
    (HashingVectorizer (2 ^ 14)) DEFAULT_TARGET_THEMES OTHER_THEMES_VALUE
    false.

Definition _split (X y : DataFrame) : M unit :=
  print "Splitting dataset..." ;;;
  parts <- train_test_split X y (Some y) (2 # 10) (Some 42%Z) ;;
  let '(X_tr, X_te, y_tr, y_te) := parts in
  setattr (fun t =>
    assign_y_test y_te (set_y_train y_tr (assign_X_test X_te (set_X_train X_tr t)))).

Definition _vectorize (X : DataFrame) : M Matrix :=
  print "Vectorizing..." ;;;
  v <- gets vectorizer ;;
  emit (EvFitTransform X) ;;;
  r <- lift (fit_transform v X) ;;
  setattr (set_vectorizer (fst r)) ;;;
  ret (snd r).

Definition train (split_df : bool) : M (option Metrics) :=
  print "Training..." ;;;
  d <- gets df ;;
  x <- gets x_column_name ;;
  X <- lift (getitem d x) ;;
  d' <- gets df ;;
  ys <- attr "y_columns_names" y_columns_names ;;
  y <- lift (getitem_list d' ys) ;;
  setattr (fun t => set_y_train y (set_X_train X t)) ;;;
  (if split_df then
     X0 <- attr "X_train" X_train ;;
     y0 <- attr "y_train" y_train ;;
     _split X0 y0
   else ret tt) ;;;
  X1 <- attr "X_train" X_train ;;
  vector <- _vectorize X1 ;;
  mo <- gets mo_classifier ;;
  y1 <- attr "y_train" y_train ;;
  emit (EvFit (OfMatrix vector) y1) ;;;
  mo' <- lift (mo_fit mo (OfMatrix vector) y1) ;;
  setattr (set_mo_classifier mo') ;;;
  if split_df then
    mo1 <- gets mo_classifier ;;
    y_te <- attr "y_test" y_test ;;
    emit (EvPredict (OfFrame y_te)) ;;;
    p <- lift (mo_predict mo1 (OfFrame y_te)) ;;
    setattr (set_y_pred p) ;;;
    y_te' <- attr "y_test" y_test ;;
    p' <- attr "y_pred" y_pred ;;
    emit (EvMetrics y_te' p') ;;;
    metrics <- lift (get_multilabel_metrics y_te' p') ;;
    ret (Some metrics)
  else ret None.

Definition _update_dataframe (d : DataFrame) (is_incremental_training : bool)
    (is_parquet : bool) (labels_freq : LabelsFreq) : M unit :=
  x <- gets x_column_name ;;
  group <- gets group_processes ;;
  themes <- gets target_themes ;;
  other <- gets other_themes_value ;;
  let args :=
    mkArgs (Some x) group themes other is_incremental_training
           (Some is_parquet) (Some labels_freq) in
  emit (EvPreprocessing args d) ;;;
  p <- lift (DataframePreprocessing args d) ;;
  setattr (set_dp p) ;;;
  p1 <- attr "dp" dp ;;
  setattr (set_df (processed_df p1)).

Definition rows_trained (n : nat) : string :=
  NilEmpty.string_of_uint (Nat.to_uint n) ++ " rows already trained" ++
  String (ascii_of_nat 10) "".

(** The [while True] loop of [incremental_train]; [fuel] bounds the number
    of iterations run. *)
Fixpoint chunk_loop (fuel : nat) (df_path : string) (nrows : nat)
    (columns_names : list label) (classes : Classes) (skiprows : nat)
  : M unit :=
  match fuel with
  | O => out_of_fuel
  | S fuel' =>
      d <- read_csv df_path nrows skiprows (Some columns_names) ;;
      if empty d then ret tt
      else
        _update_dataframe d true false no_labels_freq ;;;
        d1 <- gets df ;;
        x <- gets x_column_name ;;
        X_tr <- lift (getitem d1 x) ;;
        d2 <- gets df ;;
        themes <- gets target_themes ;;
        other <- gets other_themes_value ;;
        y_tr <- lift (getitem_list d2 (themes ++ [other])) ;;
        vector <- _vectorize X_tr ;;
        mo <- gets mo_classifier ;;
        emit (EvPartialFit (OfMatrix vector) y_tr classes) ;;;
        mo' <- lift (mo_partial_fit mo (OfMatrix vector) y_tr classes) ;;
        setattr (set_mo_classifier mo') ;;;
        print (rows_trained (skiprows + nrows - 1)) ;;;
        chunk_loop fuel' df_path nrows columns_names classes (skiprows + nrows)
  end.

(** [DataframePreprocessing().get_unique_binarized_labels(path, column,
    is_parquet)]: a scan of the whole file at [path]. *)
Definition unique_labels (path column : string) (is_parquet : option bool)
  : M (Classes * LabelsFreq) :=
  emit (EvUniqueLabels path column is_parquet) ;;;
  files <- filesystem ;;
  lift (get_unique_binarized_labels files path column is_parquet).

Definition incremental_train (fuel : nat) (df_path : string) (nrows : nat)
  : M unit :=
  print "Training incrementally..." ;;;
  header <- read_csv df_path 1 0 None ;;
  let columns_names := columns header in
  let skiprows := 1 in
  found <- unique_labels df_path "tema" None ;;
  chunk_loop fuel df_path nrows columns_names (fst found) skiprows.

(** The [for df in pf.iter_row_groups()] loop. *)
Fixpoint row_group_loop (groups : list DataFrame) (classes : Classes)
    (labels_freq : LabelsFreq) (nrows : nat) : M unit :=
  match groups with
  | [] => ret tt
  | g :: groups' =>
      d <- lift (reset_index g) ;;
      _update_dataframe d true true labels_freq ;;;
      d1 <- gets df ;;
      x <- gets x_column_name ;;
      X_tr <- lift (getitem d1 x) ;;
      d2 <- gets df ;;
      themes <- gets target_themes ;;
      other <- gets other_themes_value ;;
      y_tr <- lift (getitem_list d2 (themes ++ [other])) ;;
      vector <- _vectorize X_tr ;;
      mo <- gets mo_classifier ;;
      emit (EvPartialFit (OfMatrix (toarray vector)) y_tr classes) ;;;
      mo' <- lift (mo_partial_fit mo (OfMatrix (toarray vector)) y_tr classes) ;;
      setattr (set_mo_classifier mo') ;;;
      print (rows_trained (nrows + len d)) ;;;
      emit EvClearOutput ;;;
      row_group_loop groups' classes labels_freq (nrows + len d)
  end.

Definition incremental_train_with_parquet (parquet_path : string) : M unit :=
  print "Training incrementally with parquet..." ;;;
  let nrows := 0 in
  pf <- ParquetFile parquet_path ;;
  found <- unique_labels parquet_path "tema" (Some true) ;;
  row_group_loop pf (fst found) (snd found) nrows.

Definition predict : M Prediction :=
  mo <- gets mo_classifier ;;
  X <- attr "X_test" X_test ;;
  vector <- _vectorize X ;;
  emit (EvPredict (OfMatrix vector)) ;;;
  lift (mo_predict mo (OfMatrix vector)).

Definition set_X_test (X : DataFrame) : M unit :=
  setattr (assign_X_test X).

Definition set_y_test (y : DataFrame) : M unit :=
  setattr (assign_y_test y).

Definition get_pickle : M (list Byte.byte) :=
  mo <- gets mo_classifier ;;
  emit EvPickle ;;;
  lift (pickle_dumps mo).

(** ** Observing a run *)

(** The log [l'] is the log [l] followed by events that all satisfy [G]. *)
Definition grows (G : Event -> Prop) (l l' : list Event) : Prop :=
  exists evs, l' = (l ++ evs)%list /\ Forall G evs.

(** What the two loops may add to the log: no scan of the vocabulary, and
    partial fits that are given the class set [classes] and the columns
    [themes ++ [other]] of a preprocessed frame. *)
Definition loop_event (themes : list label) (other : label)
    (classes : Classes) (e : Event) : Prop :=
  match e with
  | EvUniqueLabels _ _ _ => False
  | EvPartialFit _ y c =>
      c = classes
      /\ exists args raw p,
           DataframePreprocessing args raw = Returns p
           /\ getitem_list (processed_df p) (themes ++ [other]) = Returns y
  | _ => True
  end.

(** Every partial fit in the log is on the label columns [schema]. *)
Definition fits_on (schema : list label) (e : Event) : Prop :=
  match e with
  | EvPartialFit _ y _ => columns y = schema
  | _ => True
  end.

(** In the log of [incremental_train], after the scan: no second scan, and
    every partial fit on the classes that the scan of [path] in [files]
    returns. *)
Definition after_scan (files : FileSystem) (path : string) (e : Event)
  : Prop :=
  match e with
  | EvUniqueLabels _ _ _ => False
  | EvPartialFit _ _ c =>
      exists labels_freq,
        get_unique_binarized_labels files path "tema" None =
        Returns (c, labels_freq)
  | _ => True
  end.

(** No prediction asked on a feature matrix: an event that is a
    prediction asks it on a frame. *)
Definition not_on_vectors (e : Event) : Prop :=
  match e with
  | EvPredict (OfMatrix _) => False
  | _ => True
  end.

(** A run that returns leaves a text in the held-out slot. *)
Definition returned_with_X_test {A} (r : outcome A * State) : Prop :=
  match fst r with
  | Ok _ => X_test (self (snd r)) <> None
  | _ => True
  end.

(** The four partitions of a trainer. *)
Definition partitions (t : Trainer)
  : option DataFrame * option DataFrame * option DataFrame * option DataFrame :=
  (X_train t, X_test t, y_train t, y_test t).

(** ** Reading a log *)

(** The raw frames handed to the preprocessor, in the order handed. *)
Definition preprocessed (evs : list Event) : list DataFrame :=
  flat_map (fun e => match e with
                     | EvPreprocessing _ raw => [raw]
                     | _ => []
                     end) evs.

(** The keyword arguments the preprocessor was built with, call by call. *)
Definition preprocessing_args (evs : list Event)
  : list (PreprocessingArgs LabelsFreq) :=
  flat_map (fun e => match e with
                     | EvPreprocessing args _ => [args]
                     | _ => []
                     end) evs.

(** The number of calls of [partial_fit]. *)
Definition partial_fits (evs : list Event) : nat :=
  List.length (flat_map (fun e => match e with
                                  | EvPartialFit _ _ _ => [tt]
                                  | _ => []
                                  end) evs).

(** The lines printed, in the order printed. *)
Definition printed (evs : list Event) : list string :=
  flat_map (fun e => match e with
                     | EvPrint msg => [msg]
                     | _ => []
                     end) evs.

(** An event of a fit without evaluation: no split, no prediction, no
    metrics, no partial fit. *)
Definition fit_only (e : Event) : Prop :=
  match e with
  | EvSplit _ _ | EvPredict _ | EvMetrics _ _ | EvPartialFit _ _ _ => False
  | _ => True
  end.

(** What the incremental loops never assign and hand to no collaborator
    that could change it in place: every attribute but the classifier, the
    vectorizer, the frame, its preprocessor and the list of themes. *)
Definition kept_by_increments (t : Trainer) :=
  (is_incremental_training t, classifier t, other_themes_value t,
   group_processes t, x_column_name t,
   (y_columns_names t, X_train t, X_test t, y_train t, y_test t, y_pred t)).

(** What [train] never assigns: the frame, its preprocessor, the label
    columns and the settings of the constructor. *)
Definition dataset_and_settings (t : Trainer) :=
  (df t, dp t, y_columns_names t, target_themes t, other_themes_value t,
   (x_column_name t, group_processes t, classifier t,
    is_incremental_training t)).

(** The two lines printed for the [j]-th chunk of [nrows] rows read from
    the offset [skiprows]. *)
Definition chunk_progress (skiprows nrows j : nat) : list string :=
  ["Vectorizing..."; rows_trained (skiprows - 1 + j * nrows)].

(** The lines printed for the row groups, [nrows] rows being counted
    before them. *)
Fixpoint group_progress (nrows : nat) (groups : list DataFrame)
  : list string :=
  match groups with
  | [] => []
  | g :: groups' =>
      "Vectorizing..." :: rows_trained (nrows + len g)
      :: group_progress (nrows + len g) groups'
  end.

(** The rows of all the row groups. *)
Definition total_rows (groups : list DataFrame) : nat :=
  fold_right (fun g n => len g + n) 0 groups.

End Trainer.

(** ** A reference instance

    Small executable collaborators, to run the trainer on concrete data: a
    hashing vectorizer of [n] features (the text length modulo [n], one-hot),
    a multi-output model that keeps the feature width it was fitted on and
    one majority bit per label, a generator that is its seed, a byte format
    for the model, a typing of the cells field by field, and a preprocessor
    that binarizes the column "tema" against the target themes. *)
Module Demo.

(** The typing of a field in the reference instance: nothing is [NaN],
    digits are an integer, the rest is text. *)
Definition parse_cell (field : string) : cell :=
  match field with
  | EmptyString => NaN
  | _ =>
      match NilEmpty.uint_of_string field with
      | Some u => CInt (Z.of_nat (Nat.of_uint u))
      | None => CStr field
      end
  end.

Definition text_length (c : cell) : nat :=
  match c with
  | CStr s => String.length s
  | _ => 0
  end.

Definition hash_row (n : nat) (r : list cell) : list Z :=
  map (fun i => if text_length (hd NaN r) mod n =? i then 1%Z else 0%Z)
      (seq 0 n).

Definition cell_value (c : cell) : Z :=
  match c with
  | CInt z => z
  | _ => 0%Z
  end.

Definition as_matrix (X : ArrayLike (list (list Z))) : list (list Z) :=
  match X with
  | OfMatrix m => m
  | OfFrame d => map (map cell_value) (rows d)
  end.

Definition width (m : list (list Z)) : nat :=
  match m with
  | [] => 0
  | r :: _ => List.length r
  end.

Definition Model : Type := option (nat * list bool).

Definition majority (y : DataFrame) : list bool :=
  map (fun j =>
         List.length (rows y) <?
         2 * List.length
               (filter (fun r => Z.eqb (cell_value (nth j r NaN)) 1) (rows y)))
      (seq 0 (List.length (columns y))).

Definition demo_fit (_ : Model) (X : ArrayLike (list (list Z)))
    (y : DataFrame) : result Model :=
  let m := as_matrix X in
  if List.length m =? List.length (rows y) then
    Returns (Some (width m, majority y))
  else Raises (ValueError "Found input variables with inconsistent numbers of samples").

Fixpoint or_bits (a b : list bool) : list bool :=
  match a, b with
  | x :: a', y :: b' => (x || y) :: or_bits a' b'
  | _, _ => []
  end.

Definition demo_partial_fit (mo : Model) (X : ArrayLike (list (list Z)))
    (y : DataFrame) (_ : list cell) : result Model :=
  let m := as_matrix X in
  if List.length m =? List.length (rows y) then
    match mo with
    | None => Returns (Some (width m, majority y))
    | Some (n, bits) =>
        if n =? width m then Returns (Some (n, or_bits bits (majority y)))
        else Raises (ValueError "Number of features does not match previous data")
    end
  else Raises (ValueError "Found input variables with inconsistent numbers of samples").

Definition demo_predict (mo : Model) (X : ArrayLike (list (list Z)))
  : result (list (list bool)) :=
  match mo with
  | None => Raises (OtherError "NotFittedError")
  | Some (n, bits) =>
      let m := as_matrix X in
      if forallb (fun r => List.length r =? n) m then Returns (map (fun _ => bits) m)
      else Raises (ValueError "X has a different number of features per sample")
  end.

(** Rounding up [n * test_size]. *)
Definition demo_validate (n : nat) (test_size : Q) : string + (nat * nat) :=
  let den := Z.pos (Qden test_size) in
  let n_test := Z.to_nat ((Z.of_nat n * Qnum test_size + den - 1) / den) in
  let n_train := n - n_test in
  if n_train =? 0 then inl "the resulting train set will be empty"
  else inr (n_train, n_test).

Definition demo_shuffle (rng : Z) (stratify : option (list (list cell)))
    (n n_train n_test : nat) : Z * (string + (list nat * list nat)) :=
  let n_classes :=
    match stratify with
    | Some keys => List.length (nodup row_eq_dec keys)
    | None => 0
    end in
  if n_test <? n_classes then
    (rng, inl "The test_size should be greater or equal to the number of classes")
  else
    let shift := Z.to_nat (rng mod Z.of_nat n) in
    let order := map (fun i => (i + shift) mod n) (seq 0 n) in
    ((rng + 1)%Z, inr (skipn n_test order, firstn n_test order)).

Import Byte.

Definition dump_bit (b : bool) : byte := if b then x01 else x00.

Definition demo_dumps (mo : Model) : list byte :=
  match mo with
  | None => [x00]
  | Some (n, bits) => x01 :: repeat x02 n ++ x00 :: map dump_bit bits
  end.

Definition theme_of (c : cell) : label :=
  match c with
  | CInt z => LInt z
  | CStr s => LStr s
  | NaN => LStr "nan"
  end.

Definition column_of (d : DataFrame) (c : label) : result (list cell) :=
  match positions c (columns d) with
  | [] => Raises (KeyError c)
  | i :: _ => Returns (map (fun r => nth i r NaN) (rows d))
  end.

Definition bit_cell (b : bool) : cell := CInt (if b then 1 else 0).

Definition binarize (themes : list label) (other : label) (schema : list label)
    (raw : cell) : list cell :=
  let t := theme_of raw in
  map (fun c =>
         bit_cell
           (if existsb (label_eqb t) themes then label_eqb c t
            else label_eqb c other))
      schema.

Definition demo_preprocessing (LF : Type) (a : PreprocessingArgs LF)
    (raw : DataFrame) : result Preprocessing :=
  let x :=
    match arg_x_column_name a with
    | Some x => x
    | None => LStr "page_text_extract"
    end in
  let schema :=
    filter (fun c => negb (label_eqb c x))
      (nodup label_eq_dec
             (arg_target_themes a ++ [arg_other_themes_value a])) in
  match column_of raw x, column_of raw (LStr "tema") with
  | Returns text, Returns themes =>
      Returns (mkPreprocessing
            (mkFrame (x :: schema)
               (map (fun tr =>
                       fst tr ::
                       binarize (arg_target_themes a)
                                (arg_other_themes_value a) schema (snd tr))
                    (combine text themes)))
            schema)
  | Raises e, _ => Raises e
  | _, Raises e => Raises e
  end.

Definition tally (cs : list cell) : list cell * list (cell * nat) :=
  let classes := nodup cell_eq_dec cs in
  (classes, map (fun c => (c, count_occ cell_eq_dec cs c)) classes).

Definition demo_unique_labels (files : FileSystem) (path column : string)
    (_ : option bool) : result (list cell * list (cell * nat)) :=
  match files path with
  | None => Raises (FileNotFoundError path)
  | Some (CsvFile []) => Raises EmptyDataError
  | Some (CsvFile (header :: body)) =>
      match column_of (mkFrame (map LStr header) (map (map parse_cell) body))
                      (LStr column) with
      | Returns cs => Returns (tally cs)
      | Raises e => Raises e
      end
  | Some (ParquetData groups) =>
      match column_of (mkFrame (match groups with
                                | [] => []
                                | g :: _ => columns g
                                end)
                               (flat_map rows groups))
                      (LStr column) with
      | Returns cs => Returns (tally cs)
      | Raises e => Raises e
      end
  end.

(** The number of label cells predicted right, and the number of cells. *)
Definition demo_metrics (y_true : DataFrame) (y_hat : list (list bool))
  : result (nat * nat) :=
  let hits :=
    map (fun rp =>
           List.length
             (filter (fun cb => Z.eqb (cell_value (fst cb))
                                      (if snd cb : bool then 1 else 0))
                     (combine (fst rp) (snd rp))))
        (combine (rows y_true) y_hat) in
  Returns (fold_right Nat.add 0 hits,
      List.length (rows y_true) * List.length (columns y_true)).

#[export] Instance collaborators : Collaborators := {
  Matrix := list (list Z);
  Estimator := Z;
  MultiOutput := Model;
  Vectorizer := nat;
  Prediction := list (list bool);
  Metrics := nat * nat;
  Classes := list cell;
  LabelsFreq := list (cell * nat);
  Rng := Z;
  PassiveAggressiveClassifier := fun seed => seed;
  HashingVectorizer := N.to_nat;
  MultiOutputClassifier := fun _ => None;
  fit_transform := fun n X => Returns (n, map (hash_row n) (rows X));
  toarray := fun m => m;
  mo_fit := demo_fit;
  mo_partial_fit := demo_partial_fit;
  mo_predict := demo_predict;
  RandomState := fun seed => seed;
  validate_shuffle_split := demo_validate;
  shuffle_indices := demo_shuffle;
  no_labels_freq := [];
  typed_record := fun _ => map parse_cell;
  pickle_dumps := fun mo => Returns (demo_dumps mo);
  DataframePreprocessing := @demo_preprocessing _;
  get_unique_binarized_labels := demo_unique_labels;
  get_multilabel_metrics := demo_metrics
}.

(** A CSV file of five records under its header, a columnar file of two
    row groups, and the frame of the five records. *)
Definition csv_lines : list (list string) :=
  [ ["page_text_extract"; "tema"];
    ["recurso"; "5"];
    ["agravo de instrumento"; "6"];
    ["habeas"; "5"];
    ["mandado"; "6"];
    ["embargos"; "77"] ].

Definition raw_frame : DataFrame :=
  mkFrame [LStr "page_text_extract"; LStr "tema"]
    (map (map parse_cell) (tl csv_lines)).

Definition files : FileSystem :=
  fun path =>
    if String.eqb path "temas.csv" then Some (CsvFile csv_lines)
    else if String.eqb path "temas.parquet" then
      Some (ParquetData
              [ mkFrame (columns raw_frame) (firstn 3 (rows raw_frame));
                mkFrame (columns raw_frame) (skipn 3 (rows raw_frame)) ])
    else None.

(** Four records, two of theme 5 and two of theme 6. *)
Definition balanced_frame : DataFrame :=
  mkFrame (columns raw_frame) (firstn 4 (rows raw_frame)).

(** Ten records, five of theme 5 and five of theme 6. *)
Definition ten_frame : DataFrame :=
  mkFrame (columns raw_frame)
    (rows balanced_frame ++ rows balanced_frame ++
     firstn 2 (rows balanced_frame)).

(** No record, under the text column alone. *)
Definition header_only : DataFrame := mkFrame [X_COLUMN_NAME] [].

Definition themes : list label := [LInt 5; LInt 6].

(** The seed-42 split of [ten_frame]: the records 2 and 3 are held out. *)
Definition ten_X_test : DataFrame :=
  mkFrame [X_COLUMN_NAME] [[CStr "habeas"]; [CStr "mandado"]].

Definition ten_y_test : DataFrame :=
  mkFrame [LInt 5; LInt 6; LInt 4242]
    [[CInt 1; CInt 0; CInt 0]; [CInt 0; CInt 1; CInt 0]].

(** A state before any trainer is built, and the states after
    [MultilabelTraining(df, target_themes=[5, 6])] with a vectorizer of four
    features. *)
Definition start (seed : Z) : State :=
  mkState files seed []
    (mkTrainer false None 0%Z 0 [] (LInt 0) false (LStr "") pd_DataFrame
       None None None None None None None).

Definition built (d : DataFrame) (seed : Z) : State :=
  snd (__init__ d X_COLUMN_NAME true 42%Z 4 themes OTHER_THEMES_VALUE false
         (start seed)).

End Demo.


(** * Properties *)

(** ** Frames *)

Lemma label_eqb_eq (a b : label) : label_eqb a b = true <-> a = b.
Proof.
  unfold label_eqb. destruct (label_eq_dec a b); split; congruence.
Qed.

Lemma positions_from_lower (c : label) (l : list label) (i j : nat) :
  In j (positions_from i c l) -> i <= j.
Proof.
  revert i; induction l as [|c' l IH]; intros i H; simpl in H.
  - contradiction.
  - destruct (label_eqb c c').
    + destruct H as [<- | H]; [lia | apply IH in H; lia].
    + apply IH in H; lia.
Qed.

Lemma positions_from_labels (c : label) (l : list label) (i : nat) (d : label) :
  map (fun j => nth (j - i) l d) (positions_from i c l) = filter (label_eqb c) l.
Proof.
  revert i; induction l as [|c' l IH]; intros i; [reflexivity|].
  cbn [positions_from filter].
  assert (Hshift :
    map (fun j => nth (j - i) (c' :: l) d) (positions_from (S i) c l)
    = filter (label_eqb c) l).
  { rewrite <- (IH (S i)). apply map_ext_in. intros j Hj.
    apply positions_from_lower in Hj.
    replace (j - i) with (S (j - S i)) by lia. reflexivity. }
  destruct (label_eqb c c') eqn:E.
  - cbn [map]. rewrite Hshift, Nat.sub_diag.
    apply label_eqb_eq in E. now subst c'.
  - exact Hshift.
Qed.

Lemma positions_labels (c : label) (l : list label) (d : label) :
  map (fun j => nth j l d) (positions c l) = filter (label_eqb c) l.
Proof.
  unfold positions. rewrite <- (positions_from_labels c l 0 d).
  apply map_ext. intros j. now rewrite Nat.sub_0_r.
Qed.

Lemma filter_label_NoDup (c : label) (l : list label) :
  NoDup l -> filter (label_eqb c) l = [] \/ filter (label_eqb c) l = [c].
Proof.
  induction 1 as [|c' l Hnin Hnd IH]; cbn [filter]; [now left|].
  destruct (label_eqb c c') eqn:Ecc; [|exact IH].
  apply label_eqb_eq in Ecc. subst c'. right. f_equal.
  destruct (filter (label_eqb c) l) as [|x r] eqn:E; [reflexivity|].
  exfalso. assert (Hx : In x (filter (label_eqb c) l)) by (rewrite E; now left).
  apply filter_In in Hx. destruct Hx as [Hx Hc].
  apply label_eqb_eq in Hc. now subst x.
Qed.

Lemma find_missing_none (d : DataFrame) (cols : list label) (c : label) :
  find (missing d) cols = None -> In c cols -> positions c (columns d) <> [].
Proof.
  intros Hf Hin E. apply (find_none _ _ Hf) in Hin.
  unfold missing in Hin. now rewrite E in Hin.
Qed.

(** On a frame whose labels are distinct, a list of labels selects exactly
    the columns asked, in the order asked. *)
Lemma getitem_list_columns (d y : DataFrame) (cols : list label) :
  NoDup (columns d) -> getitem_list d cols = Returns y -> columns y = cols.
Proof.
  unfold getitem_list. intros Hnd H.
  destruct (find (missing d) cols) eqn:Hf; [discriminate|].
  injection H as <-. simpl.
  assert (Hall : forall c, In c cols -> positions c (columns d) <> [])
    by (intros c; apply find_missing_none; assumption).
  clear Hf. induction cols as [|c cols IH]; simpl; [reflexivity|].
  rewrite map_app, IH by (intros c' Hc'; apply Hall; now right).
  rewrite positions_labels.
  destruct (filter_label_NoDup c Hnd) as [E|E]; rewrite E; [|reflexivity].
  exfalso. apply (Hall c (or_introl eq_refl)).
  apply (f_equal (@List.length _)) in E. rewrite <- (positions_labels c _ (LStr "")) in E.
  rewrite length_map in E. now destruct (positions c (columns d)).
Qed.

Lemma getitem_list_len (d y : DataFrame) (cols : list label) :
  getitem_list d cols = Returns y -> len y = len d.
Proof.
  unfold getitem_list, len. intros H.
  destruct (find (missing d) cols); [discriminate|].
  injection H as <-. simpl. apply length_map.
Qed.

Lemma getitem_missing (d : DataFrame) (c : label) :
  missing d c = true -> getitem d c = Raises (KeyError c).
Proof. intros H. unfold getitem, getitem_list. simpl. now rewrite H. Qed.

Lemma getitem_present (d : DataFrame) (c : label) :
  missing d c = false -> exists X, getitem d c = Returns X.
Proof.
  intros H. unfold getitem, getitem_list. simpl. rewrite H. eauto.
Qed.

Section Laws.

Context {C : Collaborators}.

(** ** Running the methods *)

(** The monad laws the methods are run with. *)
Lemma bind_ret {A B} (a : A) (k : A -> M B) (s : State) :
  bind (ret a) k s = k a s.
Proof. reflexivity. Qed.

Lemma bind_raise {A B} (e : exn) (k : A -> M B) (s : State) :
  bind (raise e) k s = (Raise e, s).
Proof. reflexivity. Qed.

Lemma bind_out_of_fuel {A B} (k : A -> M B) (s : State) :
  bind out_of_fuel k s = (OutOfFuel, s).
Proof. reflexivity. Qed.

Lemma bind_bind {A B D} (m : M A) (k : A -> M B) (k' : B -> M D) (s : State) :
  bind (bind m k) k' s = bind m (fun a => bind (k a) k') s.
Proof. unfold bind. destruct (m s) as [[a| |] s']; reflexivity. Qed.

Lemma bind_gets {A B} (f : Trainer -> A) (k : A -> M B) (s : State) :
  bind (gets f) k s = k (f (self s)) s.
Proof. reflexivity. Qed.

Lemma bind_lift {A B} (r : result A) (k : A -> M B) (s : State) :
  bind (lift r) k s =
  match r with
  | Returns a => k a s
  | Raises e => (Raise e, s)
  end.
Proof. now destruct r. Qed.

Lemma bind_attr {A B} (name : string) (f : Trainer -> option A)
    (k : A -> M B) (s : State) :
  bind (attr name f) k s =
  match f (self s) with
  | Some a => k a s
  | None => (Raise (AttributeError name), s)
  end.
Proof. unfold bind, attr. now destruct (f (self s)). Qed.

Lemma bind_setattr {B} (f : Trainer -> Trainer) (k : unit -> M B) (s : State) :
  bind (setattr f) k s =
  k tt (mkState (fs s) (np_random s) (calls s) (f (self s))).
Proof. reflexivity. Qed.

Lemma bind_emit {B} (e : Event) (k : unit -> M B) (s : State) :
  bind (emit e) k s =
  k tt (mkState (fs s) (np_random s) (calls s ++ [e]) (self s)).
Proof. reflexivity. Qed.

Lemma bind_print {B} (msg : string) (k : unit -> M B) (s : State) :
  bind (print msg) k s =
  k tt (mkState (fs s) (np_random s) (calls s ++ [EvPrint msg]) (self s)).
Proof. reflexivity. Qed.

Lemma bind_filesystem {B} (k : FileSystem -> M B) (s : State) :
  bind filesystem k s = k (fs s) s.
Proof. reflexivity. Qed.

Lemma bind_open_file {B} (path : string) (k : File -> M B) (s : State) :
  bind (open_file path) k s =
  match fs s path with
  | Some f => k f s
  | None => (Raise (FileNotFoundError path), s)
  end.
Proof. unfold bind, open_file. now destruct (fs s path). Qed.

Lemma bind_check_random_state {B} (random_state : option Z) (k : Rng -> M B)
    (s : State) :
  bind (check_random_state random_state) k s =
  k match random_state with
    | Some seed => RandomState seed
    | None => np_random s
    end s.
Proof. unfold bind, check_random_state. now destruct random_state. Qed.

Lemma bind_advance {B} (random_state : option Z) (rng : Rng)
    (k : unit -> M B) (s : State) :
  bind (advance random_state rng) k s =
  k tt match random_state with
       | Some _ => s
       | None => mkState (fs s) rng (calls s) (self s)
       end.
Proof. unfold bind, advance. now destruct random_state. Qed.

(** The log only grows. *)
Lemma grows_refl (G : Event -> Prop) (l : list Event) : grows G l l.
Proof. exists []. split; [now rewrite app_nil_r | constructor]. Qed.

Lemma grows_snoc (G : Event -> Prop) (l l' : list Event) (e : Event) :
  grows G l l' -> G e -> grows G l (l' ++ [e]).
Proof.
  intros [evs [-> Hall]] He. exists (evs ++ [e])%list. split.
  - now rewrite app_assoc.
  - apply Forall_app. split; [exact Hall | now constructor].
Qed.

Lemma grows_trans (G : Event -> Prop) (l l' l'' : list Event) :
  grows G l l' -> grows G l' l'' -> grows G l l''.
Proof.
  intros [evs [-> Hall]] [evs' [-> Hall']]. exists (evs ++ evs')%list. split.
  - now rewrite app_assoc.
  - apply Forall_app. now split.
Qed.

Lemma grows_weaken (G G' : Event -> Prop) (l l' : list Event) :
  (forall e, G e -> G' e) -> grows G l l' -> grows G' l l'.
Proof.
  intros Himp [evs [-> Hall]]. exists evs. split; [reflexivity|].
  eapply Forall_impl; eauto.
Qed.

End Laws.

(** Running a method: the laws, oriented, then a case split on the next
    library result, unset attribute or test. *)
Ltac reduce_state :=
  cbv beta iota;
  cbn [fst snd self calls fs np_random
       is_incremental_training mo_classifier classifier vectorizer
       target_themes other_themes_value group_processes x_column_name
       df dp y_columns_names X_train X_test y_train y_test y_pred
       set_df set_dp set_y_columns_names set_mo_classifier set_vectorizer
       set_X_train assign_X_test set_y_train assign_y_test set_y_pred].

Ltac step :=
  first
    [ rewrite bind_bind | rewrite bind_ret | rewrite bind_raise
    | rewrite bind_out_of_fuel | rewrite bind_gets | rewrite bind_lift
    | rewrite bind_attr | rewrite bind_setattr | rewrite bind_emit
    | rewrite bind_print | rewrite bind_filesystem | rewrite bind_open_file
    | rewrite bind_check_random_state | rewrite bind_advance ];
  reduce_state.

Ltac split_next :=
  match goal with
  | H : ?r = _ |- context [match ?r with _ => _ end] => rewrite H
  | |- context [match ?r with Returns _ => _ | Raises _ => _ end] =>
      destruct r eqn:?
  | |- context [match ?o with Some _ => _ | None => _ end] => destruct o eqn:?
  | |- context [match ?x with inl _ => _ | inr _ => _ end] => destruct x eqn:?
  | |- context [let '(_, _) := ?p in _] => destruct p eqn:?
  | |- context [if ?b then _ else _] => destruct b eqn:?
  | |- context [bind (match ?x with _ => _ end) _ _] => destruct x eqn:?
  end; reduce_state.

Ltac finish :=
  unfold ret, raise, lift, gets, attr, setattr, print, emit, out_of_fuel,
    filesystem;
  cbn [outcome_of]; reduce_state.

Ltac run := reduce_state; repeat first [step | split_next]; finish.

(** Closing a branch of a loop body: the events added one by one. *)
Ltac logged :=
  repeat (apply grows_snoc; [| cbn; try exact I; try (split; [reflexivity|]); eauto 8]);
  try apply grows_refl.

Section Properties.

Context {C : Collaborators}.

(** ** Prediction *)

Lemma _split_sets_X_test (X y : DataFrame) (s : State) :
  returned_with_X_test (_split X y s).
Proof.
  unfold _split, train_test_split.
  run; unfold returned_with_X_test; reduce_state;
    try exact I; try discriminate.
Qed.

Lemma train_split_sets_X_test (s : State) :
  returned_with_X_test (train true s).
Proof.
  unfold train, _split, train_test_split, _vectorize.
  run; unfold returned_with_X_test; reduce_state;
    try exact I; try discriminate.
Qed.

(** C6.  [predict] vectorizes the text held in [X_test] and returns what the
    multi-output classifier predicts on the vectors; with [X_test] never
    assigned it raises [AttributeError] and changes nothing.  The slot is
    assigned by [set_X_test], by a [_split] that returns and so by a
    [train] with [split_df=True] that returns; the constructor leaves it
    unset. *)
Theorem predict_vectorizes_X_test :
  (forall s : State,
     match X_test (self s) with
     | None => predict s = (Raise (AttributeError "X_test"), s)
     | Some X =>
         match fit_transform (vectorizer (self s)) X with
         | Returns (v, m) =>
             fst (predict s) =
             outcome_of (mo_predict (mo_classifier (self s)) (OfMatrix m))
         | Raises e => fst (predict s) = Raise e
         end
     end)
  /\ (forall (X : DataFrame) (s : State),
        X_test (self (snd (set_X_test X s))) = Some X)
  /\ (forall (X y : DataFrame) (s : State),
        returned_with_X_test (_split X y s))
  /\ (forall s : State, returned_with_X_test (train true s))
  /\ (forall d x g c v themes other inc (s : State),
        X_test (self (snd (__init__ d x g c v themes other inc s))) = None).
Proof.
  repeat split.
  - intros s. unfold predict.
    destruct (X_test (self s)) as [X|] eqn:EX; unfold _vectorize; run;
      reflexivity.
  - apply _split_sets_X_test.
  - apply train_split_sets_X_test.
  - intros. unfold __init__, _initialize_dataframe. run; reflexivity.
Qed.

(** ** Read-only entry points *)

(** C10.  With a vectorizer that [fit_transform] leaves as it was, [predict]
    and [get_pickle] change no attribute of the trainer, no file and no
    generator: only the log of calls grows. *)
Theorem predict_get_pickle_read_only
    (Hstateless : forall v X v' m, fit_transform v X = Returns (v', m) -> v' = v)
    (s : State) :
  (self (snd (predict s)) = self s
   /\ fs (snd (predict s)) = fs s
   /\ np_random (snd (predict s)) = np_random s)
  /\ (self (snd (get_pickle s)) = self s
      /\ fs (snd (get_pickle s)) = fs s
      /\ np_random (snd (get_pickle s)) = np_random s).
Proof.
  split.
  - unfold predict, _vectorize. run; repeat split; try reflexivity.
    all: match goal with
         | H : fit_transform _ _ = Returns ?a |- _ =>
             destruct a as [v' m]; apply Hstateless in H; subst v'
         end.
    all: now destruct (self s).
  - unfold get_pickle. run.
    destruct (pickle_dumps (mo_classifier (self s)));
      repeat split; reflexivity.
Qed.

(** ** Construction on an empty frame *)

(** C9, as the code has it.  Built on an empty frame, the trainer stores
    the frame and neither a preprocessor nor the label columns.  [train]
    then fails on its first subscript when the frame lacks the text column,
    with a [KeyError]; only a frame that has the text column reaches the
    missing [y_columns_names] and its [AttributeError]. *)
Theorem train_after_empty_construction
    (d : DataFrame) (x : label) (g : bool) (c : Estimator) (v : Vectorizer)
    (themes : list label) (other : label) (inc : bool) (split_df : bool)
    (s : State) :
  empty d = true ->
  let built := __init__ d x g c v themes other inc s in
  fst built = Ok tt
  /\ dp (self (snd built)) = None
  /\ y_columns_names (self (snd built)) = None
  /\ df (self (snd built)) = d
  /\ calls (snd built) = calls s
  /\ fst (train split_df (snd built)) =
     Raise (if missing d x then KeyError x
            else AttributeError "y_columns_names").
Proof.
  intros Hempty built. subst built.
  unfold __init__, _initialize_dataframe. rewrite Hempty. cbn [negb].
  destruct (missing d x) eqn:Hx.
  - pose proof (getitem_missing _ _ Hx) as HX.
    run. repeat split. unfold train. run; congruence.
  - destruct (getitem_present _ _ Hx) as [X HX].
    run. repeat split. unfold train. run; congruence.
Qed.

(** ** The held-out split *)

Lemma single_member_least_populated (keys : list (list cell)) (k : list cell) :
  In k keys -> count_occ row_eq_dec keys k < 2 ->
  least_populated_below_2 keys = true.
Proof.
  intros Hin Hcount. unfold least_populated_below_2.
  apply existsb_exists. exists k. split; [exact Hin|].
  now apply Nat.ltb_lt.
Qed.

(** C5.  On a trainer whose frame has the text column and the label
    columns, when some combination of labels is the row of a single
    example, [train] with [split_df=True] raises the [ValueError] of the
    stratified split; the log stops at the split and the classifier is the
    one it was: nothing is fitted. *)
Theorem train_split_single_member_raises
    (s : State) (ys : list label) (X y : DataFrame) (k : list cell) :
  y_columns_names (self s) = Some ys ->
  getitem (df (self s)) (x_column_name (self s)) = Returns X ->
  getitem_list (df (self s)) ys = Returns y ->
  In k (rows y) ->
  count_occ row_eq_dec (rows y) k < 2 ->
  exists msg,
    fst (train true s) = Raise (ValueError msg)
    /\ calls (snd (train true s)) =
       (calls s ++ [EvPrint "Training..."; EvPrint "Splitting dataset...";
                    EvSplit X y])%list
    /\ mo_classifier (self (snd (train true s))) = mo_classifier (self s).
Proof.
  intros Hys HX Hy Hin Hcount.
  assert (Hneq : negb (len X =? len y) = false).
  { unfold getitem in HX. apply getitem_list_len in HX, Hy.
    rewrite HX, Hy, Nat.eqb_refl. reflexivity. }
  pose proof (single_member_least_populated _ _ Hin Hcount) as Hpop.
  destruct (validate_shuffle_split (len X) (2 # 10)) as [msg|[n_train n_test]]
    eqn:Hsizes;
    eexists; unfold train, _split, train_test_split; run;
    (split; [reflexivity|]); (split; [|reflexivity]);
    rewrite <- !app_assoc; reflexivity.
Qed.


(** ** The log of the incremental loops *)

Lemma chunk_loop_events (fuel : nat) (path : string) (nrows : nat)
    (names : list label) (classes : Classes) :
  forall (skiprows : nat) (s : State),
    grows (loop_event (target_themes (self s)) (other_themes_value (self s))
                      classes)
          (calls s)
          (calls (snd (chunk_loop fuel path nrows names classes skiprows s))).
Proof.
  induction fuel as [|fuel IH]; intros skiprows s; cbn [chunk_loop].
  - apply grows_refl.
  - unfold read_csv, _update_dataframe, _vectorize.
    run; try (logged; fail).
    all: match goal with
         | |- grows _ _ (calls (snd (chunk_loop _ _ _ _ _ ?k ?st))) =>
             apply grows_trans with (l' := calls st);
             [| exact (IH k st)]
         end; reduce_state; logged.
Qed.

Lemma row_group_loop_events (groups : list DataFrame) (classes : Classes)
    (labels_freq : LabelsFreq) :
  forall (nrows : nat) (s : State),
    grows (loop_event (target_themes (self s)) (other_themes_value (self s))
                      classes)
          (calls s)
          (calls (snd (row_group_loop groups classes labels_freq nrows s))).
Proof.
  induction groups as [|g groups IH]; intros nrows s; cbn [row_group_loop].
  - apply grows_refl.
  - unfold _update_dataframe, _vectorize.
    run; try (logged; fail).
    all: match goal with
         | |- grows _ _ (calls (snd (row_group_loop _ _ _ ?k ?st))) =>
             apply grows_trans with (l' := calls st);
             [| exact (IH k st)]
         end; reduce_state; logged.
Qed.

(** C2.  When the preprocessor never gives two columns the same label, in
    a run of [incremental_train] and in a run of
    [incremental_train_with_parquet] every label matrix handed to
    [partial_fit] has the columns [target_themes + [other_themes_value]],
    in that order, whatever the chunk or row group holds. *)
Theorem partial_fit_columns_fixed
    (Hschema : forall args raw p,
        DataframePreprocessing args raw = Returns p ->
        NoDup (columns (processed_df p)))
    (s : State) :
  let schema := (target_themes (self s) ++ [other_themes_value (self s)])%list in
  (forall (fuel : nat) (df_path : string) (nrows : nat),
     grows (fits_on schema) (calls s)
           (calls (snd (incremental_train fuel df_path nrows s))))
  /\ (forall parquet_path : string,
        grows (fits_on schema) (calls s)
              (calls (snd (incremental_train_with_parquet parquet_path s)))).
Proof.
  intros schema.
  assert (Hloop : forall classes e,
    loop_event (target_themes (self s)) (other_themes_value (self s)) classes e ->
    fits_on schema e).
  { intros classes [] He; cbn in *; try exact I.
    destruct He as [_ (args & raw & p & Hp & Hy)].
    eapply getitem_list_columns; [eapply Hschema|]; eassumption. }
  split.
  - intros fuel df_path nrows.
    unfold incremental_train, read_csv, unique_labels.
    run; try (logged; fail).
    all: match goal with
         | |- grows _ _ (calls (snd (chunk_loop ?n ?p ?r ?ns ?cl ?k ?st))) =>
             apply grows_trans with (l' := calls st);
             [| apply grows_weaken with (2 := chunk_loop_events n p r ns cl k st);
                apply Hloop]
         end; reduce_state; logged.
  - intros parquet_path.
    unfold incremental_train_with_parquet, ParquetFile, unique_labels.
    run; try (logged; fail).
    all: match goal with
         | |- grows _ _ (calls (snd (row_group_loop ?g ?cl ?lf ?k ?st))) =>
             apply grows_trans with (l' := calls st);
             [| apply grows_weaken with (2 := row_group_loop_events g cl lf k st);
                apply Hloop]
         end; reduce_state; logged.
Qed.

(** C3.  A run of [incremental_train] that reads the header scans the
    labels of the whole file at [df_path] once, before the first chunk is
    read: the log is the header read, the scan, then the events of the
    loop, none of which is a scan, and every [partial_fit] among them is
    given the class set that the scan returned.  A run whose header read
    raises scans nothing. *)
Theorem vocabulary_scanned_once
    (fuel : nat) (df_path : string) (nrows : nat) (s : State) :
  (calls (snd (incremental_train fuel df_path nrows s)) =
     (calls s ++ [EvPrint "Training incrementally...";
                  EvReadCsv df_path 1 0])%list
   /\ exists e, fst (incremental_train fuel df_path nrows s) = Raise e)
  \/ (exists evs,
        calls (snd (incremental_train fuel df_path nrows s)) =
          (calls s ++ [EvPrint "Training incrementally...";
                       EvReadCsv df_path 1 0;
                       EvUniqueLabels df_path "tema" None] ++ evs)%list
        /\ Forall (after_scan (fs s) df_path) evs).
Proof.
  unfold incremental_train, read_csv, unique_labels.
  run.
  all: try (left; split; [now rewrite <- !app_assoc | eauto]; fail).
  all: try (right; exists []; split; [now rewrite <- !app_assoc | constructor]; fail).
  all: match goal with
       | Hscan : get_unique_binarized_labels _ _ _ _ = Returns ?found
         |- context [chunk_loop ?n ?p ?r ?ns ?cl ?k ?st] =>
           destruct (chunk_loop_events n p r ns cl k st) as [evs [Hlog Hall]];
           right; exists evs; split;
           [ rewrite Hlog; reduce_state; now rewrite <- !app_assoc
           | eapply Forall_impl; [| exact Hall];
             intros [] He; cbn in *; try exact I; try contradiction;
             destruct He as [-> _]; exists (snd found);
             rewrite Hscan; now destruct found ]
       end.
Qed.

(** ** Termination of the chunk loop *)

Lemma records_length (lines : list (list string)) :
  List.length (records lines) <= List.length lines.
Proof.
  induction lines as [|line lines IH]; [apply Nat.le_refl|].
  cbn [records filter]. fold (records lines).
  destruct (negb (blank line)); cbn [List.length]; lia.
Qed.

Lemma nonempty_chunk (names : list label) (nrows k : nat)
    (lines : list (list string)) :
  empty (frame_of_records names (firstn nrows (records (skipn k lines))))
  = false ->
  0 < nrows /\ k < List.length lines.
Proof.
  unfold empty, frame_of_records. cbn [columns rows]. intros H.
  apply orb_false_elim in H. destruct H as [_ H].
  apply Nat.eqb_neq in H.
  rewrite length_map, length_firstn in H.
  pose proof (records_length (skipn k lines)) as Hle.
  rewrite length_skipn in Hle. lia.
Qed.

(** A chunk is read past the previous one, so the records left shrink. *)
Lemma chunk_loop_fuel (lines : list (list string)) (path : string)
    (nrows : nat) (names : list label) (classes : Classes) (fuel : nat) :
  forall (skiprows : nat) (s : State),
    fs s path = Some (CsvFile lines) ->
    List.length lines - skiprows < fuel ->
    fst (chunk_loop fuel path nrows names classes skiprows s) <> OutOfFuel.
Proof.
  induction fuel as [|fuel IH]; intros skiprows s Hfile Hfuel; [lia|].
  cbn [chunk_loop]. unfold read_csv, _update_dataframe, _vectorize.
  run; try discriminate.
  apply IH; reduce_state; [assumption|].
  match goal with
  | H : empty _ = false |- _ => apply nonempty_chunk in H
  end.
  lia.
Qed.

Lemma chunk_loop_unreadable (path : string) (nrows : nat)
    (names : list label) (classes : Classes) (fuel skiprows : nat)
    (s : State) :
  (forall lines, fs s path <> Some (CsvFile lines)) ->
  fst (chunk_loop (S fuel) path nrows names classes skiprows s) <> OutOfFuel.
Proof.
  intros Hfile. cbn [chunk_loop]. unfold read_csv.
  destruct (fs s path) as [[lines|groups]|] eqn:Hpath;
    [exfalso; now apply (Hfile lines) | |];
    run; discriminate.
Qed.

Lemma read_csv_state (path : string) (nrows skiprows : nat)
    (names : option (list label)) (s : State) :
  snd (read_csv path nrows skiprows names s) =
  mkState (fs s) (np_random s) (calls s ++ [EvReadCsv path nrows skiprows])
          (self s).
Proof.
  unfold read_csv. rewrite bind_emit, bind_open_file. reduce_state.
  destruct (fs s path) as [[lines|groups]|];
    [destruct names as [ns|]; [|destruct (records (skipn skiprows lines))]| |];
    reflexivity.
Qed.

(** The iterations that suffice from the offset [skiprows]. *)
Lemma chunk_loop_enough (path : string) (nrows : nat) (names : list label)
    (classes : Classes) (skiprows : nat) (s : State) :
  exists enough, forall fuel,
    enough <= fuel ->
    fst (chunk_loop fuel path nrows names classes skiprows s) <> OutOfFuel.
Proof.
  destruct (fs s path) as [[lines|groups]|] eqn:Hfile.
  - exists (S (List.length lines - skiprows)). intros fuel Hfuel.
    apply chunk_loop_fuel with (lines := lines); [assumption | lia].
  - exists 1. intros [|fuel] Hfuel; [lia|].
    apply chunk_loop_unreadable. intros lines. congruence.
  - exists 1. intros [|fuel] Hfuel; [lia|].
    apply chunk_loop_unreadable. intros lines. congruence.
Qed.

(** C4.  The chunk loop of [incremental_train] ends on every file: from
    any offset some number of iterations suffices, and so for the method.
    An iteration whose read returns no row returns at once: no error, the
    trainer untouched, and the read as the last entry of the log, with no
    [partial_fit] after it. *)
Theorem chunk_loop_terminates
    (df_path : string) (nrows : nat) (s : State) :
  (forall names classes skiprows,
     exists enough, forall fuel,
       enough <= fuel ->
       fst (chunk_loop fuel df_path nrows names classes skiprows s)
       <> OutOfFuel)
  /\ (exists enough, forall fuel,
        enough <= fuel ->
        fst (incremental_train fuel df_path nrows s) <> OutOfFuel)
  /\ (forall names classes skiprows fuel d s',
        read_csv df_path nrows skiprows (Some names) s = (Ok d, s') ->
        empty d = true ->
        chunk_loop (S fuel) df_path nrows names classes skiprows s =
        (Ok tt, mkState (fs s) (np_random s)
                  (calls s ++ [EvReadCsv df_path nrows skiprows]) (self s))).
Proof.
  split; [|split].
  - intros. apply chunk_loop_enough.
  - destruct (fs s df_path) as [[lines|groups]|] eqn:Hfile.
    + exists (S (List.length lines)). intros fuel Hfuel.
      unfold incremental_train, read_csv, unique_labels.
      run; try discriminate.
      apply chunk_loop_fuel with (lines := lines);
        reduce_state; [congruence | lia].
    + exists 0. intros fuel _.
      unfold incremental_train, read_csv. run; discriminate.
    + exists 0. intros fuel _.
      unfold incremental_train, read_csv. run; discriminate.
  - intros names classes skiprows fuel d s' Hread Hempty.
    cbn [chunk_loop]. unfold bind at 1. rewrite Hread, Hempty.
    pose proof (read_csv_state df_path nrows skiprows (Some names) s) as Hs.
    rewrite Hread in Hs. cbn [snd] in Hs. now subst s'.
Qed.

End Properties.

(** * The reference instance at work *)

Section Examples.

Import Demo.

Lemma demo_stateless (v : nat) (X : DataFrame) (v' : nat) (m : list (list Z)) :
  fit_transform v X = Returns (v', m) -> v' = v.
Proof. cbn. intros H. now injection H. Qed.

Lemma demo_schema_NoDup (a : PreprocessingArgs (list (cell * nat)))
    (raw : DataFrame) (p : Preprocessing) :
  DataframePreprocessing a raw = Returns p -> NoDup (columns (processed_df p)).
Proof.
  cbn. unfold demo_preprocessing.
  destruct (column_of raw _) as [text|e]; [|discriminate].
  destruct (column_of raw (LStr "tema")) as [tema|e]; [|discriminate].
  intros H. injection H as <-. cbn [processed_df columns].
  constructor.
  - intros Hin. apply filter_In in Hin. destruct Hin as [_ Hin].
    apply negb_true_iff in Hin.
    assert (Hrefl : label_eqb
      match arg_x_column_name a with
      | Some x => x
      | None => LStr "page_text_extract"
      end
      match arg_x_column_name a with
      | Some x => x
      | None => LStr "page_text_extract"
      end = true) by now apply label_eqb_eq.
    congruence.
  - apply NoDup_filter, NoDup_nodup.
Qed.

(** C1, where the code departs from it.  [train] with [split_df=True]
    never hands vectorized text to [predict]: whatever the collaborators,
    the one prediction it asks for is on the frame of held-out labels
    [y_test].  On ten records with a vectorizer of four features and
    three label columns, the text held out is never vectorized, the
    prediction is asked on the labels, and the run raises the classifier's
    [ValueError] on the width of its input instead of returning metrics. *)
Theorem train_split_predicts_on_labels :
  (forall (C : Collaborators) (s : State),
     grows not_on_vectors (calls s) (calls (snd (train true s))))
  /\ (let run := train true (built ten_frame 0) in
      X_test (self (snd run)) = Some ten_X_test
      /\ y_test (self (snd run)) = Some ten_y_test
      /\ In (EvPredict (OfFrame ten_y_test)) (calls (snd run))
      /\ ~ In (EvFitTransform ten_X_test) (calls (snd run))
      /\ fst run =
         Raise (ValueError "X has a different number of features per sample")).
Proof.
  split.
  - intros C s. unfold train, _split, train_test_split, _vectorize.
    run; logged.
  - set (run := train true (built ten_frame 0)).
    vm_compute in run. subst run. cbn [fst snd self calls X_test y_test].
    repeat split.
    + cbn. repeat (try (left; reflexivity); right).
    + cbn. intros H. repeat destruct H as [H|H]; try discriminate; exact H.
Qed.

(** C2 at work: the three chunks of the CSV file, of themes 5 and 6, then
    5 and 6, then 77 alone. *)
Lemma partial_fit_columns_fixed_witness :
  grows (fits_on [LInt 5; LInt 6; LInt 4242])
        (calls (built pd_DataFrame 0))
        (calls (snd (incremental_train 10 "temas.csv" 2
                       (built pd_DataFrame 0)))).
Proof.
  exact (proj1 (partial_fit_columns_fixed demo_schema_NoDup
                  (built pd_DataFrame 0)) 10 "temas.csv" 2).
Defined.

(** C4 at work: five records read two at a time; the read at offset 7 is
    empty. *)
Lemma chunk_loop_terminates_witness :
  let s := built pd_DataFrame 0 in
  let names := [LStr "page_text_extract"; LStr "tema"] in
  chunk_loop 1 "temas.csv" 2 names [] 7 s =
  (Ok tt, mkState (fs s) (np_random s)
            (calls s ++ [EvReadCsv "temas.csv" 2 7]) (self s)).
Proof.
  intros s names.
  exact (proj2 (proj2 (chunk_loop_terminates "temas.csv" 2 s))
           names [] 7 0 (mkFrame names [])
           (mkState (fs s) (np_random s)
              (calls s ++ [EvReadCsv "temas.csv" 2 7]) (self s))
           eq_refl eq_refl).
Defined.

(** C5 at work: of the five records one alone is of another theme. *)
Lemma train_split_single_member_raises_witness :
  exists msg,
    fst (train true (built raw_frame 0)) = Raise (ValueError msg)
    /\ mo_classifier (self (snd (train true (built raw_frame 0)))) = None.
Proof.
  destruct (@train_split_single_member_raises _ (built raw_frame 0)
              [LInt 5; LInt 6; LInt 4242]
              (mkFrame [X_COLUMN_NAME]
                 (map (fun r => [hd NaN r]) (rows raw_frame)))
              (mkFrame [LInt 5; LInt 6; LInt 4242]
                 (map (fun r => tl r) (rows (df (self (built raw_frame 0))))))
              [CInt 0; CInt 0; CInt 1]
              eq_refl eq_refl eq_refl
              (or_intror (or_intror (or_intror (or_intror (or_introl eq_refl)))))
              (le_n 2))
    as [msg [Hraise [_ Hmodel]]].
  exists msg. split; [exact Hraise | exact Hmodel].
Defined.


(** C9 as stated fails on the default trainer: its frame has no column at
    all, and [train] raises [KeyError] on the text column. *)
Lemma train_on_default_trainer_raises_KeyError :
  let s := snd (default_init (start 0)) in
  empty (df (self s)) = true
  /\ y_columns_names (self s) = None
  /\ fst (train false s) = Raise (KeyError X_COLUMN_NAME)
  /\ fst (train false s) <> Raise (AttributeError "y_columns_names").
Proof.
  set (r := fst (train false (snd (default_init (start 0))))).
  vm_compute in r. subst r. cbv zeta.
  repeat split. discriminate.
Qed.

(** C9 as amended, at work: a frame of no record that has the text column. *)
Lemma train_after_empty_construction_witness :
  empty header_only = true
  /\ fst (train true
            (snd (__init__ header_only X_COLUMN_NAME true 42%Z 4 themes
                    OTHER_THEMES_VALUE false (start 0)))) =
     Raise (AttributeError "y_columns_names").
Proof.
  split; [reflexivity|].
  exact (proj2 (proj2 (proj2 (proj2 (proj2
           (@train_after_empty_construction _ header_only X_COLUMN_NAME true
              42%Z 4 themes OTHER_THEMES_VALUE false true (start 0)
              eq_refl)))))).
Defined.

(** C10 at work: a prediction and a dump after a fit on the ten records. *)
Lemma predict_get_pickle_read_only_witness :
  let s := snd (set_X_test ten_X_test (snd (train false (built ten_frame 0)))) in
  self (snd (predict s)) = self s /\ self (snd (get_pickle s)) = self s.
Proof.
  intros s.
  exact (conj (proj1 (proj1 (predict_get_pickle_read_only demo_stateless s)))
              (proj1 (proj2 (predict_get_pickle_read_only demo_stateless s)))).
Defined.

End Examples.

(** * More of the trainer *)

(** ** Indexing by drawn indices *)

Lemma safe_rows_length (rs out : list (list cell)) (idx : list nat) :
  safe_rows rs idx = Some out -> List.length out = List.length idx.
Proof.
  revert out; induction idx as [|i idx IH]; intros out H; cbn in H.
  - now injection H as <-.
  - destruct (nth_error rs i); [|discriminate].
    destruct (safe_rows rs idx) as [out'|]; [|discriminate].
    injection H as <-. cbn. now rewrite (IH out').
Qed.

Lemma safe_rows_incl (rs out : list (list cell)) (idx : list nat) :
  safe_rows rs idx = Some out -> incl out rs.
Proof.
  revert out; induction idx as [|i idx IH]; intros out H; cbn in H.
  - injection H as <-. intros r [].
  - destruct (nth_error rs i) as [r|] eqn:Hr; [|discriminate].
    destruct (safe_rows rs idx) as [out'|]; [|discriminate].
    injection H as <-. intros r' [<-|Hin].
    + eapply nth_error_In; eassumption.
    + now apply (IH out').
Qed.

Lemma safe_indexing_rows (d out : DataFrame) (idx : list nat) :
  safe_indexing d idx = Returns out ->
  columns out = columns d /\ safe_rows (rows d) idx = Some (rows out).
Proof.
  unfold safe_indexing. destruct (safe_rows (rows d) idx); [|discriminate].
  intros H. injection H as <-. now split.
Qed.

Section Coverage.

Context {C : Collaborators}.

(** ** Full-batch training without a held-out split *)

(** X1.  [train] with [split_df=False] asks for no split, no prediction
    and no metrics, and leaves the held-out slots and [y_pred] as they
    were.  When it returns it returns [None], and the trainer is the one it
    was with the text column in [X_train], the label columns in [y_train],
    the vectorizer refitted on the whole text and the classifier fitted on
    the vectors of the whole text and on all the labels. *)
Theorem train_without_split (s : State) :
  grows fit_only (calls s) (calls (snd (train false s)))
  /\ (X_test (self (snd (train false s))),
      y_test (self (snd (train false s))),
      y_pred (self (snd (train false s)))) =
     (X_test (self s), y_test (self s), y_pred (self s))
  /\ forall r,
       fst (train false s) = Ok r ->
       r = None
       /\ exists X ys y vm mo',
            getitem (df (self s)) (x_column_name (self s)) = Returns X
            /\ y_columns_names (self s) = Some ys
            /\ getitem_list (df (self s)) ys = Returns y
            /\ fit_transform (vectorizer (self s)) X = Returns vm
            /\ mo_fit (mo_classifier (self s)) (OfMatrix (snd vm)) y =
               Returns mo'
            /\ self (snd (train false s)) =
               set_mo_classifier mo'
                 (set_vectorizer (fst vm)
                    (set_y_train y (set_X_train X (self s)))).
Proof.
  split; [|split].
  - unfold train, _vectorize. run; logged.
  - unfold train, _vectorize. run; reflexivity.
  - intros r. unfold train, _vectorize.
    run; intros Hr; try discriminate.
    injection Hr as <-. split; [reflexivity|].
    repeat eexists; eauto.
Qed.

(** X4.  [train] never assigns the frame, its preprocessor, the label
    columns or the settings of the constructor, whatever [split_df] and
    however it ends. *)
Theorem train_keeps_dataset (split_df : bool) (s : State) :
  dataset_and_settings (self (snd (train split_df s))) =
  dataset_and_settings (self s).
Proof.
  unfold train, _split, train_test_split, _vectorize.
  destruct split_df; run; reflexivity.
Qed.

(** ** Construction on a frame with rows *)

(** X2.  On a frame that is not empty the constructor calls the
    preprocessor once, on that frame, with the grouping flag, the themes
    and the incremental flag it was given and without the text column
    name.  The trainer it builds holds the processed frame, the
    preprocessor, its [distinct_themes] as label columns, the wrapper of
    the classifier and no partition; when the preprocessor raises, so does
    the constructor. *)
Theorem construction_preprocesses
    (d : DataFrame) (x : label) (g : bool) (c : Estimator) (v : Vectorizer)
    (themes : list label) (other : label) (inc : bool) (s : State) :
  empty d = false ->
  let args := mkArgs None g themes other inc None None in
  calls (snd (__init__ d x g c v themes other inc s)) =
    (calls s ++ [EvPreprocessing args d])%list
  /\ match DataframePreprocessing args d with
     | Returns p =>
         fst (__init__ d x g c v themes other inc s) = Ok tt
         /\ self (snd (__init__ d x g c v themes other inc s)) =
            mkTrainer inc (MultiOutputClassifier c) c v themes other g x
              (processed_df p) (Some p) (Some (distinct_themes p))
              None None None None None
     | Raises e => fst (__init__ d x g c v themes other inc s) = Raise e
     end.
Proof.
  intros Hd args. subst args.
  unfold __init__, _initialize_dataframe. rewrite Hd. cbn [negb].
  run; repeat split; reflexivity.
Qed.

(** ** The held-out split *)

(** X3.  When [_split] returns, the four partitions are set, and the text
    and the labels were indexed by the same two lists of indices: the
    training text and the training labels row by row, and so the held-out
    ones.  Each partition keeps the columns of its source and holds rows of
    its source only. *)
Theorem split_keeps_text_and_labels_aligned (X y : DataFrame) (s : State) :
  fst (_split X y s) = Ok tt ->
  exists train test X_tr X_te y_tr y_te,
    partitions (self (snd (_split X y s))) =
      (Some X_tr, Some X_te, Some y_tr, Some y_te)
    /\ safe_rows (rows X) train = Some (rows X_tr)
    /\ safe_rows (rows y) train = Some (rows y_tr)
    /\ safe_rows (rows X) test = Some (rows X_te)
    /\ safe_rows (rows y) test = Some (rows y_te)
    /\ (len X_tr = len y_tr /\ len X_te = len y_te)
    /\ (columns X_tr = columns X /\ columns X_te = columns X
        /\ columns y_tr = columns y /\ columns y_te = columns y)
    /\ (incl (rows X_tr) (rows X) /\ incl (rows X_te) (rows X)
        /\ incl (rows y_tr) (rows y) /\ incl (rows y_te) (rows y)).
Proof.
  unfold _split, train_test_split.
  run; intros Hok; try discriminate.
  repeat match goal with
         | H : safe_indexing _ _ = Returns _ |- _ =>
             apply safe_indexing_rows in H; destruct H as [? ?]
         end.
  match goal with
  | H1 : safe_rows (rows X) ?tr = Some (rows ?a),
    H2 : safe_rows (rows X) ?te = Some (rows ?b),
    H3 : safe_rows (rows y) ?tr = Some (rows ?c),
    H4 : safe_rows (rows y) ?te = Some (rows ?d) |- _ =>
      exists tr, te, a, b, c, d;
      pose proof (safe_rows_length _ _ H1); pose proof (safe_rows_length _ _ H2);
      pose proof (safe_rows_length _ _ H3); pose proof (safe_rows_length _ _ H4);
      pose proof (safe_rows_incl _ _ H1); pose proof (safe_rows_incl _ _ H2);
      pose proof (safe_rows_incl _ _ H3); pose proof (safe_rows_incl _ _ H4)
  end.
  unfold len, partitions. reduce_state.
  repeat split; try assumption; try congruence.
Qed.

(** ** Prediction and the setters *)

(** X11.  [predict] refits the vectorizer on the held-out text: when
    [fit_transform] returns, the trainer after the call is the one before
    with the vectorizer that [fit_transform] returned, and nothing else
    changed; when [X_test] is unset or [fit_transform] raises, the trainer
    is unchanged. *)
Theorem predict_refits_vectorizer (s : State) :
  self (snd (predict s)) =
  match X_test (self s) with
  | Some X =>
      match fit_transform (vectorizer (self s)) X with
      | Returns vm => set_vectorizer (fst vm) (self s)
      | Raises _ => self s
      end
  | None => self s
  end.
Proof.
  unfold predict, _vectorize. run; reflexivity.
Qed.

(** X12.  [set_X_test] then [predict] predicts on the text just set,
    whatever the slot held before; [set_y_test] changes the held-out labels
    and nothing that [predict] reads; each setter changes its slot alone. *)
Theorem setters_then_predict (X y : DataFrame) (s : State) :
  fst (predict (snd (set_X_test X s))) =
    match fit_transform (vectorizer (self s)) X with
    | Returns vm =>
        outcome_of (mo_predict (mo_classifier (self s)) (OfMatrix (snd vm)))
    | Raises e => Raise e
    end
  /\ fst (predict (snd (set_y_test y s))) = fst (predict s)
  /\ self (snd (set_X_test X s)) = assign_X_test X (self s)
  /\ self (snd (set_y_test y s)) = assign_y_test y (self s)
  /\ calls (snd (set_X_test X s)) = calls s
  /\ calls (snd (set_y_test y s)) = calls s.
Proof.
  unfold set_X_test, set_y_test, setattr. cbn [fst snd].
  unfold predict, _vectorize.
  repeat split; run; reflexivity.
Qed.

End Coverage.

(** ** Reading a log, piece by piece *)

Section Logs.

Context {C : Collaborators}.

Lemma preprocessed_app (a b : list Event) :
  preprocessed (a ++ b) = (preprocessed a ++ preprocessed b)%list.
Proof. apply flat_map_app. Qed.

Lemma printed_app (a b : list Event) :
  printed (a ++ b) = (printed a ++ printed b)%list.
Proof. apply flat_map_app. Qed.

Lemma partial_fits_app (a b : list Event) :
  partial_fits (a ++ b) = partial_fits a + partial_fits b.
Proof. unfold partial_fits. now rewrite flat_map_app, length_app. Qed.

End Logs.

Lemma ceil_step (nrows m : nat) :
  0 < nrows -> 0 < m ->
  (m + nrows - 1) / nrows = S ((m - nrows + nrows - 1) / nrows).
Proof.
  intros Hn Hm.
  replace (m + nrows - 1) with ((m - 1) + 1 * nrows) by lia.
  rewrite Nat.div_add by lia.
  destruct (Nat.le_gt_cases nrows m) as [Hge|Hlt].
  - replace (m - nrows + nrows - 1) with (m - 1) by lia. lia.
  - replace (m - nrows + nrows - 1) with (nrows - 1) by lia.
    rewrite !Nat.div_small by lia. reflexivity.
Qed.

Lemma records_no_blank (lines : list (list string)) :
  Forall (fun line => line <> []) lines -> records lines = lines.
Proof.
  induction 1 as [|line lines Hline _ IH]; [reflexivity|].
  cbn [records filter]. fold (records lines). rewrite IH.
  destruct line; [congruence | reflexivity].
Qed.

Lemma no_blank_skipn (k : nat) (lines : list (list string)) :
  Forall (fun line => line <> []) lines ->
  Forall (fun line => line <> []) (skipn k lines).
Proof.
  intros H. apply Forall_forall. intros line Hin.
  rewrite Forall_forall in H. apply H.
  rewrite <- (firstn_skipn k lines). apply in_or_app. now right.
Qed.

(** Past the header, a file without blank lines has its lines as
    records. *)
Lemma records_past_header (k : nat) (lines : list (list string)) :
  Forall (fun line => line <> []) (skipn 1 lines) ->
  1 <= k ->
  records (skipn k lines) = skipn k lines.
Proof.
  intros H Hk. apply records_no_blank.
  replace k with ((k - 1) + 1) by lia. rewrite <- skipn_skipn.
  now apply no_blank_skipn.
Qed.

Lemma chunk_progress_shift (k nrows n : nat) :
  1 <= k ->
  forall a,
    flat_map (chunk_progress (k + nrows) nrows) (seq a n) =
    flat_map (chunk_progress k nrows) (seq (S a) n).
Proof.
  intros Hk. induction n as [|n IH]; intros a; [reflexivity|].
  cbn [seq flat_map]. rewrite IH. f_equal.
  unfold chunk_progress. do 3 f_equal. cbn [Nat.mul]. lia.
Qed.

Section Chunks.

Context {C : Collaborators}.

Variables (path : string) (nrows : nat) (names : list label)
          (classes : Classes).

Lemma empty_chunk (recs : list (list string)) :
  names <> [] -> 0 < nrows ->
  empty (frame_of_records names (firstn nrows recs)) = true ->
  recs = [].
Proof.
  intros Hnames Hn. unfold empty, frame_of_records. cbn [columns rows].
  intros H.
  apply orb_true_iff in H. destruct H as [H|H]; apply Nat.eqb_eq in H.
  - destruct names; [congruence | discriminate].
  - rewrite length_map in H. destruct nrows; [lia|].
    destruct recs; [reflexivity | discriminate].
Qed.

(** The lines that a chunk loop that returns has printed, on any file:
    two per [partial_fit], the count growing by [nrows]. *)
Lemma chunk_loop_progress (fuel : nat) :
  forall (k : nat) (s : State),
    1 <= k ->
    fst (chunk_loop fuel path nrows names classes k s) = Ok tt ->
    exists evs,
      calls (snd (chunk_loop fuel path nrows names classes k s)) =
        (calls s ++ evs)%list
      /\ printed evs =
         flat_map (chunk_progress k nrows) (seq 1 (partial_fits evs)).
Proof.
  induction fuel as [|fuel IH]; intros k s Hk; cbn [chunk_loop].
  - discriminate.
  - unfold read_csv, _update_dataframe, _vectorize.
    run; intros Hok; try discriminate.
    + exists [EvReadCsv path nrows k]. split; reflexivity.
    + match goal with
      | |- context [chunk_loop fuel _ _ _ _ _ ?st] =>
          destruct (IH (k + nrows) st ltac:(lia) Hok)
            as (evs & Hcalls & Hprint);
          rewrite Hcalls
      end.
      reduce_state.
      match goal with
      | |- context [((((((calls s ++ [?e1]) ++ [?e2]) ++ [?e3]) ++ [?e4])
                       ++ [?e5]) ++ [?e6])%list] =>
          exists ([e1; e2; e3; e4; e5; e6] ++ evs)%list
      end.
      split; [now rewrite <- !app_assoc|].
      rewrite printed_app, partial_fits_app.
      cbn [partial_fits printed flat_map app List.length Nat.add].
      rewrite Hprint.
      rewrite (chunk_progress_shift nrows (partial_fits evs) Hk).
      cbn [seq flat_map app chunk_progress]. unfold chunk_progress.
      do 3 f_equal. cbn [Nat.mul]. lia.
Qed.

Variable lines : list (list string).

Hypothesis (Hnames : names <> []) (Hnrows : 0 < nrows).

Hypothesis Hrecords : Forall (fun line => line <> []) (skipn 1 lines).

(** What a chunk loop that returns has done from the offset [k], on a file
    without blank lines past the header. *)
Lemma chunk_loop_covers (fuel : nat) :
  forall (k : nat) (s : State),
    fs s path = Some (CsvFile lines) ->
    1 <= k ->
    fst (chunk_loop fuel path nrows names classes k s) = Ok tt ->
    exists evs chunks,
      calls (snd (chunk_loop fuel path nrows names classes k s)) =
        (calls s ++ evs)%list
      /\ List.concat chunks = skipn k lines
      /\ Forall (fun chunk => 0 < List.length chunk <= nrows) chunks
      /\ Forall (fun chunk => List.length chunk = nrows) (removelast chunks)
      /\ preprocessed evs = map (frame_of_records names) chunks
      /\ partial_fits evs = List.length chunks
      /\ List.length chunks = (List.length lines - k + nrows - 1) / nrows.
Proof.
  induction fuel as [|fuel IH]; intros k s Hfile Hk; cbn [chunk_loop].
  - discriminate.
  - unfold read_csv, _update_dataframe, _vectorize.
    rewrite !bind_bind, bind_emit, bind_bind, bind_open_file. reduce_state.
    rewrite Hfile. cbv beta iota.
    rewrite (@records_past_header k lines Hrecords Hk).
    run; intros Hok; try discriminate.
    + (* the read is empty *)
      match goal with
      | H : empty _ = true |- _ =>
          apply empty_chunk in H; [|assumption|assumption];
          rename H into Hend
      end.
      assert (Hleft : List.length lines - k = 0)
        by (rewrite <- length_skipn, Hend; reflexivity).
      exists [EvReadCsv path nrows k], []. rewrite Hend, Hleft.
      cbn [preprocessed partial_fits flat_map app List.length map List.concat
           removelast].
      rewrite Nat.div_small by lia.
      repeat split; constructor.
    + (* a chunk, then the rest *)
      match goal with
      | H : empty _ = false |- _ =>
          pose proof H as Hmore;
          rewrite <- (@records_past_header k lines Hrecords Hk) in Hmore;
          apply nonempty_chunk in Hmore;
          destruct Hmore as [_ Hmore]
      end.
      match goal with
      | |- context [chunk_loop fuel _ _ _ _ _ ?st] =>
          destruct (IH (k + nrows) st Hfile ltac:(lia) Hok)
            as (evs & chunks & Hcalls & Hcat & Hall & Hfull & Hpre & Hfits
                & Hlen);
          rewrite Hcalls
      end.
      reduce_state.
      match goal with
      | |- context [((((((calls s ++ [?e1]) ++ [?e2]) ++ [?e3]) ++ [?e4])
                       ++ [?e5]) ++ [?e6])%list] =>
          exists ([e1; e2; e3; e4; e5; e6] ++ evs)%list,
                 (firstn nrows (skipn k lines) :: chunks)
      end.
      split; [now rewrite <- !app_assoc|].
      rewrite preprocessed_app, partial_fits_app.
      cbn [preprocessed partial_fits flat_map app List.length Nat.add
           map List.concat].
      rewrite Hcat, Hpre, Hfits, Hlen.
      repeat split.
      * rewrite (Nat.add_comm k nrows), <- skipn_skipn.
        apply firstn_skipn.
      * constructor; [|exact Hall].
        rewrite length_firstn, length_skipn. lia.
      * destruct chunks as [|chunk chunks]; [constructor|].
        change (removelast (firstn nrows (skipn k lines) :: chunk :: chunks))
          with (firstn nrows (skipn k lines) :: removelast (chunk :: chunks)).
        constructor; [|exact Hfull].
        rewrite length_firstn, length_skipn.
        assert (Hrest : List.length (skipn (k + nrows) lines) <> 0).
        { rewrite <- Hcat. inversion Hall as [|? ? Hchunk _]; subst.
          cbn [List.concat]. rewrite length_app. lia. }
        rewrite length_skipn in Hrest. lia.
      * rewrite (ceil_step (nrows := nrows) (m := List.length lines - k))
          by lia.
        do 3 f_equal. lia.
Qed.

End Chunks.

Section CsvRuns.

Context {C : Collaborators}.

Lemma read_header (path : string) (header : list string)
    (body : list (list string)) (s : State) :
  fs s path = Some (CsvFile (header :: body)) ->
  header <> [] ->
  read_csv path 1 0 None s =
  (Ok (frame_of_records (map LStr header) (firstn 1 (records body))),
   mkState (fs s) (np_random s) (calls s ++ [EvReadCsv path 1 0]) (self s)).
Proof.
  intros Hfile Hheader. unfold read_csv. rewrite bind_emit, bind_open_file.
  reduce_state. rewrite Hfile. cbn [skipn records filter].
  destruct header; [congruence|]. reflexivity.
Qed.

(** Past a header that can be read, [incremental_train] is the scan and
    then the chunk loop from the offset 1. *)
Lemma incremental_train_start (fuel : nat) (path : string) (nrows : nat)
    (header : list string) (body : list (list string)) (s : State) :
  fs s path = Some (CsvFile (header :: body)) ->
  header <> [] ->
  incremental_train fuel path nrows s =
  let s' :=
    mkState (fs s) (np_random s)
      (calls s ++ [EvPrint "Training incrementally..."; EvReadCsv path 1 0;
                   EvUniqueLabels path "tema" None])
      (self s) in
  match get_unique_binarized_labels (fs s) path "tema" None with
  | Returns found =>
      chunk_loop fuel path nrows (map LStr header) (fst found) 1 s'
  | Raises e => (Raise e, s')
  end.
Proof.
  intros Hfile Hheader. unfold incremental_train. rewrite bind_print.
  reduce_state. unfold bind at 1.
  rewrite (@read_header path header body
             (mkState (fs s) (np_random s)
                (calls s ++ [EvPrint "Training incrementally..."]) (self s))
             Hfile Hheader).
  cbv beta iota zeta. unfold unique_labels.
  rewrite bind_bind, bind_emit, bind_bind, bind_filesystem, bind_lift.
  reduce_state. rewrite <- !app_assoc.
  unfold frame_of_records. cbn [app columns].
  destruct (get_unique_binarized_labels (fs s) path "tema" None);
    reflexivity.
Qed.

(** What a run of [incremental_train] that returns has done, on a file
    without blank lines. *)
Lemma incremental_train_covers (fuel : nat) (path : string) (nrows : nat)
    (header : list string) (body : list (list string)) (s : State) :
  fs s path = Some (CsvFile (header :: body)) ->
  header <> [] ->
  Forall (fun line => line <> []) body ->
  0 < nrows ->
  fst (incremental_train fuel path nrows s) = Ok tt ->
  exists evs chunks,
    calls (snd (incremental_train fuel path nrows s)) =
      (calls s ++ [EvPrint "Training incrementally..."; EvReadCsv path 1 0;
                   EvUniqueLabels path "tema" None] ++ evs)%list
    /\ List.concat chunks = body
    /\ Forall (fun chunk => 0 < List.length chunk <= nrows) chunks
    /\ Forall (fun chunk => List.length chunk = nrows) (removelast chunks)
    /\ preprocessed evs = map (frame_of_records (map LStr header)) chunks
    /\ partial_fits evs = List.length chunks
    /\ List.length chunks = (List.length body + nrows - 1) / nrows.
Proof.
  intros Hfile Hheader Hbody Hnrows.
  assert (Hnames : map LStr header <> [])
    by (destruct header; [congruence | discriminate]).
  rewrite (@incremental_train_start fuel path nrows header body s Hfile
             Hheader).
  cbv zeta.
  destruct (get_unique_binarized_labels (fs s) path "tema" None)
    as [found|e]; [|discriminate].
  intros Hok.
  match type of Hok with
  | context [chunk_loop fuel _ _ _ ?cl _ ?st] =>
      destruct (@chunk_loop_covers _ path nrows (map LStr header) cl
                  (header :: body) Hnames Hnrows Hbody fuel 1 st Hfile
                  (le_n 1) Hok)
        as (evs & chunks & Hcalls & Hcat & Hall & Hfull & Hpre & Hfits
            & Hlen)
  end.
  exists evs, chunks. rewrite Hcalls. reduce_state.
  cbn [skipn List.length] in *.
  rewrite Nat.sub_succ, Nat.sub_0_r in Hlen.
  repeat split; try assumption.
  now rewrite <- !app_assoc.
Qed.

(** The lines that a run of [incremental_train] that returns has printed,
    on any file. *)
Lemma incremental_train_progress (fuel : nat) (path : string) (nrows : nat)
    (s : State) :
  fst (incremental_train fuel path nrows s) = Ok tt ->
  exists evs,
    calls (snd (incremental_train fuel path nrows s)) = (calls s ++ evs)%list
    /\ printed evs =
       "Training incrementally..."
       :: flat_map (fun j => ["Vectorizing..."; rows_trained (j * nrows)])
                   (seq 1 (partial_fits evs)).
Proof.
  unfold incremental_train, read_csv, unique_labels.
  run; intros Hok; try discriminate.
  match goal with
  | |- context [chunk_loop ?f ?p ?n ?ns ?cl _ ?st] =>
      destruct (@chunk_loop_progress _ p n ns cl f 1 st (le_n 1) Hok)
        as (evs & Hcalls & Hprint);
      rewrite Hcalls
  end.
  reduce_state.
  match goal with
  | |- context [((((calls s ++ [?e1]) ++ [?e2]) ++ [?e3]) ++ evs)%list] =>
      exists ([e1; e2; e3] ++ evs)%list
  end.
  split; [now rewrite <- !app_assoc|].
  rewrite printed_app, partial_fits_app, Hprint. reflexivity.
Qed.

(** X5.  On a file of a header and [N] records, no line of it blank, read
    [nrows] at a time, a run of [incremental_train] that returns has cut
    the records into chunks in the order of the file, each of [nrows]
    records but the last, which has the records left, and none empty.  It
    has handed the frame of each chunk, under the names of the header, to
    the preprocessor, in that order, and has called [partial_fit] once per
    chunk: [N / nrows] times, rounded up. *)
Theorem incremental_train_reads_every_record
    (fuel : nat) (path : string) (nrows : nat)
    (header : list string) (body : list (list string)) (s : State) :
  fs s path = Some (CsvFile (header :: body)) ->
  header <> [] ->
  Forall (fun line => line <> []) body ->
  0 < nrows ->
  fst (incremental_train fuel path nrows s) = Ok tt ->
  exists evs chunks,
    calls (snd (incremental_train fuel path nrows s)) =
      (calls s ++ [EvPrint "Training incrementally..."; EvReadCsv path 1 0;
                   EvUniqueLabels path "tema" None] ++ evs)%list
    /\ List.concat chunks = body
    /\ Forall (fun chunk => 0 < List.length chunk <= nrows) chunks
    /\ Forall (fun chunk => List.length chunk = nrows) (removelast chunks)
    /\ preprocessed evs = map (frame_of_records (map LStr header)) chunks
    /\ partial_fits evs = List.length chunks
    /\ List.length chunks = (List.length body + nrows - 1) / nrows.
Proof.
  intros Hfile Hheader Hbody Hnrows Hok.
  exact (@incremental_train_covers fuel path nrows header body s
           Hfile Hheader Hbody Hnrows Hok).
Qed.

(** X6.  The progress that [incremental_train] prints counts the rows asked
    for, not the rows read: on any file, a run that returns has printed one
    line per [partial_fit], the [j]-th reporting [j * nrows] rows.  On a
    file of a header and [N] records, no line of it blank, the last line
    reports [N] rounded up to a multiple of [nrows]: at least [N], and less
    than [N + nrows]. *)
Theorem incremental_train_progress_counts_requests
    (fuel : nat) (path : string) (nrows : nat) (s : State) :
  fst (incremental_train fuel path nrows s) = Ok tt ->
  exists evs,
    calls (snd (incremental_train fuel path nrows s)) = (calls s ++ evs)%list
    /\ printed evs =
       "Training incrementally..."
       :: flat_map (fun j => ["Vectorizing..."; rows_trained (j * nrows)])
                   (seq 1 (partial_fits evs))
    /\ forall (header : list string) (body : list (list string)),
         fs s path = Some (CsvFile (header :: body)) ->
         header <> [] ->
         Forall (fun line => line <> []) body ->
         0 < nrows ->
         partial_fits evs = (List.length body + nrows - 1) / nrows
         /\ List.length body <= partial_fits evs * nrows
            < List.length body + nrows.
Proof.
  intros Hok.
  destruct (@incremental_train_progress fuel path nrows s Hok)
    as (evs & Hcalls & Hprint).
  exists evs. split; [exact Hcalls|]. split; [exact Hprint|].
  intros header body Hfile Hheader Hbody Hnrows.
  destruct (@incremental_train_covers fuel path nrows header body s
              Hfile Hheader Hbody Hnrows Hok)
    as (evs' & chunks & Hcalls' & _ & _ & _ & _ & Hfits & Hlen).
  rewrite Hcalls in Hcalls'. apply app_inv_head in Hcalls'. subst evs.
  rewrite partial_fits_app. cbn [partial_fits flat_map app List.length].
  cbn [Nat.add]. rewrite Hfits, Hlen. split; [reflexivity|].
  pose proof (Nat.div_mod_eq (List.length body + nrows - 1) nrows) as Hdm.
  pose proof (Nat.mod_upper_bound (List.length body + nrows - 1) nrows
                ltac:(lia)) as Hlt.
  rewrite (Nat.mul_comm _ nrows). lia.
Qed.

End CsvRuns.

Section Edges.

Context {C : Collaborators}.

(** A file of blank lines alone has no header: the first read raises. *)
Lemma incremental_train_no_record
    (fuel : nat) (path : string) (nrows : nat) (lines : list (list string))
    (s : State) :
  fs s path = Some (CsvFile lines) ->
  records lines = [] ->
  incremental_train fuel path nrows s =
  (Raise EmptyDataError,
   mkState (fs s) (np_random s)
     (calls s ++ [EvPrint "Training incrementally..."; EvReadCsv path 1 0])
     (self s)).
Proof.
  intros Hfile Hrecords. unfold incremental_train, read_csv.
  rewrite bind_print, !bind_bind, bind_emit, bind_bind, bind_open_file.
  reduce_state. rewrite Hfile. cbv beta iota. cbn [skipn].
  rewrite Hrecords, !bind_raise. now rewrite <- app_assoc.
Qed.

(** X8.  With [nrows=0], or on a file that has a header and no record
    after it, [incremental_train] trains on nothing and says nothing of it:
    after a scan that returns, the first read is empty, the method returns,
    no preprocessing and no [partial_fit] was asked, and the trainer is as
    it was. *)
Theorem incremental_train_nothing_to_read
    (fuel : nat) (path : string) (nrows : nat) (header : list string)
    (body : list (list string)) (found : Classes * LabelsFreq) (s : State) :
  fs s path = Some (CsvFile (header :: body)) ->
  header <> [] ->
  nrows = 0 \/ records body = [] ->
  get_unique_binarized_labels (fs s) path "tema" None = Returns found ->
  incremental_train (S fuel) path nrows s =
  (Ok tt,
   mkState (fs s) (np_random s)
     (calls s ++ [EvPrint "Training incrementally..."; EvReadCsv path 1 0;
                  EvUniqueLabels path "tema" None; EvReadCsv path nrows 1])
     (self s)).
Proof.
  intros Hfile Hheader Hnothing Hscan.
  assert (Hempty : forall names,
    empty (frame_of_records names
             (firstn nrows (records (skipn 1 (header :: body))))) = true).
  { intros names. unfold empty, frame_of_records. cbn [columns rows skipn].
    destruct Hnothing as [-> | ->]; cbn [firstn map List.length];
      [|destruct nrows]; apply orb_true_r. }
  rewrite (@incremental_train_start _ (S fuel) path nrows header body s
             Hfile Hheader).
  cbv zeta. rewrite Hscan. cbn [chunk_loop]. unfold read_csv.
  rewrite !bind_bind, bind_emit, bind_bind, bind_open_file. reduce_state.
  rewrite Hfile. cbv beta iota. rewrite bind_ret, Hempty.
  unfold ret. now rewrite <- app_assoc.
Qed.

(** X9.  On a path that is no file both incremental methods raise
    [FileNotFoundError] at their first read, and on a CSV file of no record
    [incremental_train] raises [EmptyDataError] there: before any scan of
    the labels, with the trainer as it was. *)
Theorem incremental_training_unreadable_file
    (fuel : nat) (path : string) (nrows : nat) (s : State) :
  match fs s path with
  | None =>
      incremental_train fuel path nrows s =
        (Raise (FileNotFoundError path),
         mkState (fs s) (np_random s)
           (calls s ++ [EvPrint "Training incrementally...";
                        EvReadCsv path 1 0])
           (self s))
      /\ incremental_train_with_parquet path s =
         (Raise (FileNotFoundError path),
          mkState (fs s) (np_random s)
            (calls s ++ [EvPrint "Training incrementally with parquet...";
                         EvParquetFile path])
            (self s))
  | Some (CsvFile []) =>
      incremental_train fuel path nrows s =
        (Raise EmptyDataError,
         mkState (fs s) (np_random s)
           (calls s ++ [EvPrint "Training incrementally...";
                        EvReadCsv path 1 0])
           (self s))
  | Some _ => True
  end.
Proof.
  destruct (fs s path) as [[[|header body]|groups]|] eqn:Hfile;
    try exact I.
  - unfold incremental_train, read_csv.
    rewrite bind_print, !bind_bind, bind_emit, bind_bind, bind_open_file.
    reduce_state. rewrite Hfile. cbv beta iota. cbn [skipn records filter].
    rewrite !bind_raise. now rewrite <- app_assoc.
  - split.
    + unfold incremental_train, read_csv.
      rewrite bind_print, !bind_bind, bind_emit, bind_bind, bind_open_file.
      reduce_state. rewrite Hfile. now rewrite <- app_assoc.
    + unfold incremental_train_with_parquet, ParquetFile.
      rewrite bind_print, !bind_bind, bind_emit, bind_bind, bind_open_file.
      reduce_state. rewrite Hfile. now rewrite <- app_assoc.
Qed.

(** ** What the incremental loops leave alone *)

Lemma chunk_loop_keeps (fuel : nat) (path : string) (nrows : nat)
    (names : list label) (classes : Classes) :
  forall (k : nat) (s : State),
    kept_by_increments
      (self (snd (chunk_loop fuel path nrows names classes k s)))
    = kept_by_increments (self s).
Proof.
  induction fuel as [|fuel IH]; intros k s; cbn [chunk_loop].
  - reflexivity.
  - unfold read_csv, _update_dataframe, _vectorize.
    run; try reflexivity.
    all: match goal with
         | |- context [chunk_loop _ _ _ _ _ ?k' ?st] => rewrite (IH k' st)
         end; reflexivity.
Qed.

Lemma row_group_loop_keeps (groups : list DataFrame) (classes : Classes)
    (labels_freq : LabelsFreq) :
  forall (n : nat) (s : State),
    kept_by_increments
      (self (snd (row_group_loop groups classes labels_freq n s)))
    = kept_by_increments (self s).
Proof.
  induction groups as [|g groups IH]; intros n s; cbn [row_group_loop].
  - reflexivity.
  - unfold _update_dataframe, _vectorize.
    run; try reflexivity.
    all: match goal with
         | |- context [row_group_loop _ _ _ ?n' ?st] => rewrite (IH n' st)
         end; reflexivity.
Qed.

(** X10.  However they end, [incremental_train] and
    [incremental_train_with_parquet] assign only the classifier, the
    vectorizer, the frame and its preprocessor: the text column name, the
    other settings of the constructor but the list of themes, the label
    columns, the partitions and [y_pred] are as they were. *)
Theorem incremental_training_keeps_the_rest
    (fuel : nat) (path : string) (nrows : nat) (s : State) :
  kept_by_increments (self (snd (incremental_train fuel path nrows s)))
  = kept_by_increments (self s)
  /\ kept_by_increments (self (snd (incremental_train_with_parquet path s)))
     = kept_by_increments (self s).
Proof.
  split.
  - unfold incremental_train, read_csv, unique_labels.
    run; try reflexivity.
    all: match goal with
         | |- context [chunk_loop ?f ?p ?n ?ns ?cl ?k ?st] =>
             rewrite (chunk_loop_keeps f p n ns cl k st)
         end; reflexivity.
  - unfold incremental_train_with_parquet, ParquetFile, unique_labels.
    run; try reflexivity.
    all: match goal with
         | |- context [row_group_loop ?g ?cl ?lf ?k ?st] =>
             rewrite (row_group_loop_keeps g cl lf k st)
         end; reflexivity.
Qed.

End Edges.

(** ** The row groups of a columnar file *)

Lemma reset_index_len (g d : DataFrame) :
  reset_index g = Returns d -> len d = len g.
Proof.
  unfold reset_index.
  destruct (missing g (if missing g (LStr "index") then LStr "index"
                       else LStr "level_0")); [|discriminate].
  intros H. injection H as <-. unfold len. cbn [rows].
  rewrite length_map, length_combine, length_seq. apply Nat.min_id.
Qed.

Lemma last_group_progress (groups : list DataFrame) :
  forall (n : nat) (d : string),
    groups <> [] ->
    last (group_progress n groups) d = rows_trained (n + total_rows groups).
Proof.
  induction groups as [|g groups IH]; intros n d Hne; [congruence|].
  cbn [group_progress total_rows fold_right].
  destruct groups as [|g' groups].
  - cbn [group_progress last fold_right]. f_equal. lia.
  - change (last ("Vectorizing..." :: rows_trained (n + len g)
                  :: group_progress (n + len g) (g' :: groups)) d)
      with (last (group_progress (n + len g) (g' :: groups)) d).
    rewrite IH by discriminate. f_equal. unfold total_rows. lia.
Qed.

Section Parquet.

Context {C : Collaborators}.

Lemma preprocessing_args_app (a b : list Event) :
  preprocessing_args (a ++ b) =
  (preprocessing_args a ++ preprocessing_args b)%list.
Proof. apply flat_map_app. Qed.

(** What a loop over the row groups that returns has done. *)
Lemma row_group_loop_covers (classes : Classes) (labels_freq : LabelsFreq)
    (groups : list DataFrame) :
  forall (n : nat) (s : State),
    fst (row_group_loop groups classes labels_freq n s) = Ok tt ->
    exists evs,
      calls (snd (row_group_loop groups classes labels_freq n s)) =
        (calls s ++ evs)%list
      /\ Forall2 (fun g d => reset_index g = Returns d)
                 groups (preprocessed evs)
      /\ Forall (fun a => arg_labels_freq a = Some labels_freq
                          /\ arg_is_parquet a = Some true)
                (preprocessing_args evs)
      /\ partial_fits evs = List.length groups
      /\ printed evs = group_progress n groups.
Proof.
  induction groups as [|g groups IH]; intros n s; cbn [row_group_loop].
  - intros _. exists []. cbn. rewrite app_nil_r.
    repeat split; constructor.
  - unfold _update_dataframe, _vectorize.
    run; intros Hok; try discriminate.
    match goal with
    | |- context [row_group_loop _ _ _ ?n' ?st] =>
        destruct (IH n' st Hok)
          as (evs & Hcalls & Hgroups & Hargs & Hfits & Hprint);
        rewrite Hcalls
    end.
    reduce_state.
    match goal with
    | |- context [((((((calls s ++ [?e1]) ++ [?e2]) ++ [?e3]) ++ [?e4])
                     ++ [?e5]) ++ [?e6])%list] =>
        exists ([e1; e2; e3; e4; e5; e6] ++ evs)%list
    end.
    split; [now rewrite <- !app_assoc|].
    rewrite preprocessed_app, preprocessing_args_app, printed_app,
      partial_fits_app.
    cbn [preprocessed preprocessing_args partial_fits printed flat_map app
         List.length Nat.add arg_labels_freq arg_is_parquet].
    rewrite Hfits, Hprint.
    match goal with
    | H : reset_index _ = Returns _ |- _ =>
        pose proof (@reset_index_len _ _ H) as Hlen
    end.
    rewrite !Hlen.
    repeat split; try reflexivity.
    + constructor; assumption.
    + constructor; [now split | exact Hargs].
Qed.

(** X7.  A run of [incremental_train_with_parquet] that returns has
    scanned the file once, then taken the row groups in the order of the
    file: each one, its index reset, was handed to the preprocessor with
    the label frequencies of the scan and the parquet flag, and each was
    followed by one [partial_fit].  The count printed after a row group is
    the number of rows up to it, so the last line reports the rows of the
    file. *)
Theorem parquet_run_takes_every_row_group
    (path : string) (groups : list DataFrame) (s : State) :
  fs s path = Some (ParquetData groups) ->
  fst (incremental_train_with_parquet path s) = Ok tt ->
  exists found evs,
    get_unique_binarized_labels (fs s) path "tema" (Some true) = Returns found
    /\ calls (snd (incremental_train_with_parquet path s)) =
       (calls s ++ [EvPrint "Training incrementally with parquet...";
                    EvParquetFile path;
                    EvUniqueLabels path "tema" (Some true)] ++ evs)%list
    /\ Forall2 (fun g d => reset_index g = Returns d)
               groups (preprocessed evs)
    /\ Forall (fun a => arg_labels_freq a = Some (snd found)
                        /\ arg_is_parquet a = Some true)
              (preprocessing_args evs)
    /\ partial_fits evs = List.length groups
    /\ printed evs = group_progress 0 groups
    /\ (groups <> [] ->
        last (printed evs) "" = rows_trained (total_rows groups)).
Proof.
  intros Hfile.
  unfold incremental_train_with_parquet, ParquetFile, unique_labels.
  run; intros Hok; try discriminate.
  match goal with
  | Hscan : get_unique_binarized_labels _ _ _ _ = Returns ?found
    |- context [row_group_loop ?g ?cl ?lf ?n ?st] =>
      destruct (@row_group_loop_covers cl lf g n st Hok)
        as (evs & Hcalls & Hgroups & Hargs & Hfits & Hprint);
      exists found, evs; rewrite Hcalls
  end.
  reduce_state.
  match goal with
  | H : Some _ = Some _ |- _ => injection H as <-
  | _ => idtac
  end.
  repeat split; try assumption.
  - now rewrite <- !app_assoc.
  - intros Hne. rewrite Hprint. now apply last_group_progress.
Qed.

End Parquet.

(** * More of the reference instance at work *)

Section MoreExamples.

Import Demo.

(** X2 at work: the five records. *)
Lemma construction_preprocesses_witness :
  empty raw_frame = false
  /\ calls (built raw_frame 0) =
     [EvPreprocessing
        (mkArgs None true themes OTHER_THEMES_VALUE false None None)
        raw_frame].
Proof.
  split; [reflexivity|].
  exact (proj1 (@construction_preprocesses _ raw_frame X_COLUMN_NAME true
                  42%Z 4 themes OTHER_THEMES_VALUE false (start 0) eq_refl)).
Defined.

(** X3 at work: the ten records split on their themes. *)
Lemma split_keeps_text_and_labels_aligned_witness :
  let y := mkFrame [LStr "tema"] (map (@tl cell) (rows ten_frame)) in
  exists X_tr X_te y_tr y_te,
    partitions (self (snd (_split ten_frame y (built ten_frame 0)))) =
      (Some X_tr, Some X_te, Some y_tr, Some y_te)
    /\ len X_tr = len y_tr /\ len X_te = len y_te.
Proof.
  intros y.
  destruct (@split_keeps_text_and_labels_aligned _ ten_frame y
              (built ten_frame 0) ltac:(vm_compute; reflexivity))
    as (tr & te & a & b & c & d & Hp & _ & _ & _ & _ & Hlen & _).
  exists a, b, c, d. split; [exact Hp | exact Hlen].
Defined.

(** X5 at work: five records read two at a time are three chunks and three
    partial fits. *)
Lemma incremental_train_reads_every_record_witness :
  exists evs chunks,
    List.concat chunks = tl csv_lines
    /\ preprocessed evs =
       map (frame_of_records [LStr "page_text_extract"; LStr "tema"]) chunks
    /\ partial_fits evs = 3.
Proof.
  destruct (@incremental_train_reads_every_record _ 10 "temas.csv" 2
              ["page_text_extract"; "tema"] (tl csv_lines)
              (built pd_DataFrame 0) eq_refl
              ltac:(discriminate) ltac:(repeat constructor; discriminate)
              ltac:(lia) ltac:(vm_compute; reflexivity))
    as (evs & chunks & _ & Hcat & _ & _ & Hpre & Hfits & Hlen).
  exists evs, chunks.
  split; [exact Hcat|]. split; [exact Hpre | exact (eq_trans Hfits Hlen)].
Defined.

(** X6 at work: the same run reports 2, 4 and 6 rows of five. *)
Lemma incremental_train_progress_counts_requests_witness :
  exists evs,
    printed evs =
      ["Training incrementally...";
       "Vectorizing..."; rows_trained 2;
       "Vectorizing..."; rows_trained 4;
       "Vectorizing..."; rows_trained 6]
    /\ 5 <= partial_fits evs * 2 < 7.
Proof.
  destruct (@incremental_train_progress_counts_requests _ 10 "temas.csv" 2
              (built pd_DataFrame 0) ltac:(vm_compute; reflexivity))
    as (evs & _ & Hprint & Hfile).
  destruct (Hfile ["page_text_extract"; "tema"] (tl csv_lines) eq_refl
              ltac:(discriminate) ltac:(repeat constructor; discriminate)
              ltac:(lia))
    as [Hfits Hbound].
  exists evs. split; [|exact Hbound].
  rewrite Hfits in Hprint. exact Hprint.
Defined.

(** X7 at work: the row groups of three and two rows. *)
Lemma parquet_run_takes_every_row_group_witness :
  exists evs,
    partial_fits evs = 2
    /\ printed evs =
       ["Vectorizing..."; rows_trained 3; "Vectorizing..."; rows_trained 5].
Proof.
  destruct (@parquet_run_takes_every_row_group _ "temas.parquet"
              [ mkFrame (columns raw_frame) (firstn 3 (rows raw_frame));
                mkFrame (columns raw_frame) (skipn 3 (rows raw_frame)) ]
              (built pd_DataFrame 0) eq_refl
              ltac:(vm_compute; reflexivity))
    as (found & evs & _ & _ & _ & _ & Hfits & Hprint & _).
  exists evs. split; [exact Hfits | exact Hprint].
Defined.

(** X8 at work: the CSV file read no row at a time. *)
Lemma incremental_train_nothing_to_read_witness :
  let s := built pd_DataFrame 0 in
  incremental_train 1 "temas.csv" 0 s =
  (Ok tt,
   mkState (fs s) (np_random s)
     (calls s ++ [EvPrint "Training incrementally...";
                  EvReadCsv "temas.csv" 1 0;
                  EvUniqueLabels "temas.csv" "tema" None;
                  EvReadCsv "temas.csv" 0 1])
     (self s)).
Proof.
  intros s.
  exact (@incremental_train_nothing_to_read _ 0 "temas.csv" 0
           ["page_text_extract"; "tema"] (tl csv_lines)
           (tally (map (fun r => nth 1 r NaN) (rows raw_frame)))
           s eq_refl ltac:(discriminate) (or_introl eq_refl) eq_refl).
Defined.

End MoreExamples.
